(** * OrionTax Sync: a shallow embedding of the local store and the
      enterprise (Oracle) client, and the properties of their contracts.

    The development follows the Python sources:

    - [Py]          the fragment of Python the sources rely on: exceptions,
                    a state-and-exception monad, [str] methods, [float()];
    - [Pandas]      the data frames handed to the enterprise client;
    - [Oracle]      core/oracle_client.py;
    - [Encryption]  config/encryption.py;
    - [Database]    config/database.py (the SQLite store): the writers of
                    clients, OrionTax settings, schedules and passwords;
    - [Spec]        the vocabulary of the statements;
    - [Samples]     stores, frames and servers to run the model on;
    - [Store]       config/database.py, the rest: accounts, listings,
                    the reading of schedules, the enterprise connections
                    and the execution log;
    - [ClientDialog] gui/client_dialog.py (validation and saving);
    - [Scheduler]   core/scheduler.py (triggers and the registry of jobs);
    - [Sync]        core/scheduler.py (the scheduled runs);
    - [Props]       the vocabulary of the further statements;
    - [Demo]        further samples.

    Conventions.  A Python [str] is a Rocq [string]; a character that is
    not ASCII is carried as the bytes of its UTF-8 form, and is neither a
    digit, nor white space, nor a cased letter.  Wall-clock readings and
    random draws are explicit arguments.  Calls to the logger are kept
    where the cleaning of cell values reports an error and where the
    scheduler says why it registered no job, and left out elsewhere. *)

From Stdlib Require Import List String Ascii ZArith NArith Lia Bool Arith.
From Stdlib Require Import DecimalString DecimalPos DecimalZ.
From Stdlib Require Import Sorted Permutation.
Import ListNotations.

Open Scope list_scope.
Open Scope nat_scope.
Open Scope string_scope.

(* ===================================================================== *)
(** * Python *)
(* ===================================================================== *)

Module Py.

(** Exceptions, by class, with the text [str(e)] gives. *)
Inductive exn : Type :=
| ValueError (msg : string)
| TypeError (msg : string)
| AttributeError (msg : string)
| IndexError (msg : string)
| UnicodeDecodeError (msg : string)
| InvalidToken
| IntegrityError (msg : string)
| DatabaseError (code : option Z) (msg : string)
| Exception (msg : string).

Definition exn_str (e : exn) : string :=
  match e with
  | ValueError m | TypeError m | AttributeError m | IndexError m
  | UnicodeDecodeError m | IntegrityError m | DatabaseError _ m
  | Exception m => m
  | InvalidToken => ""
  end.

Inductive result (A : Type) : Type :=
| Ok (a : A)
| Raise (e : exn).
Arguments Ok {A} a.
Arguments Raise {A} e.

(** A computation over a state [S] that returns or raises; the state
    survives an exception, as the attributes of [self] do. *)
Definition M (S A : Type) : Type := S -> result A * S.

Definition ret {S A} (a : A) : M S A := fun s => (Ok a, s).
Definition raise {S A} (e : exn) : M S A := fun s => (Raise e, s).
Definition bind {S A B} (m : M S A) (k : A -> M S B) : M S B :=
  fun s => match m s with
           | (Ok a, s') => k a s'
           | (Raise e, s') => (Raise e, s')
           end.
(** [try: m  except Exception as e: h e] *)
Definition try_except {S A} (m : M S A) (h : exn -> M S A) : M S A :=
  fun s => match m s with
           | (Ok a, s') => (Ok a, s')
           | (Raise e, s') => h e s'
           end.
Definition get {S} : M S S := fun s => (Ok s, s).
Definition modify {S} (f : S -> S) : M S unit := fun s => (Ok tt, f s).
Definition lift {S A} (r : result A) : M S A := fun s => (r, s).

Declare Scope py_scope.
Delimit Scope py_scope with py.
Notation "x <- m ;; k" := (bind m (fun x => k))
  (at level 61, m at next level, right associativity) : py_scope.
Notation "m ;;; k" := (bind m (fun _ => k))
  (at level 61, right associativity) : py_scope.

(** ** Characters and [str] methods *)

Definition code (c : ascii) : nat := nat_of_ascii c.

(** [str.isdigit], on ASCII *)
Definition isdigit (c : ascii) : bool :=
  ((48 <=? code c) && (code c <=? 57))%nat.

(** The white space [str.strip()] removes: TAB LF VT FF CR, FS GS RS US
    and the space. *)
Definition isspace (c : ascii) : bool :=
  (((9 <=? code c) && (code c <=? 13))
   || ((28 <=? code c) && (code c <=? 31))
   || (code c =? 32))%nat.

Definition lower_char (c : ascii) : ascii :=
  if ((65 <=? code c) && (code c <=? 90))%nat then ascii_of_nat (code c + 32) else c.
Definition upper_char (c : ascii) : ascii :=
  if ((97 <=? code c) && (code c <=? 122))%nat then ascii_of_nat (code c - 32) else c.

Fixpoint map_str (f : ascii -> ascii) (s : string) : string :=
  match s with
  | EmptyString => EmptyString
  | String c r => String (f c) (map_str f r)
  end.

(** [''.join(filter(p, s))] *)
Fixpoint filter_str (p : ascii -> bool) (s : string) : string :=
  match s with
  | EmptyString => EmptyString
  | String c r => if p c then String c (filter_str p r) else filter_str p r
  end.


Definition lower (s : string) : string := map_str lower_char s.
Definition upper (s : string) : string := map_str upper_char s.

Fixpoint lstrip (s : string) : string :=
  match s with
  | EmptyString => EmptyString
  | String c r => if isspace c then lstrip r else s
  end.
Fixpoint rstrip (s : string) : string :=
  match s with
  | EmptyString => EmptyString
  | String c r =>
      match rstrip r with
      | EmptyString => if isspace c then EmptyString else String c EmptyString
      | r' => String c r'
      end
  end.
Definition strip (s : string) : string := lstrip (rstrip s).

(** [s.replace(",", ".")] *)
Definition comma_to_dot (c : ascii) : ascii :=
  if Ascii.eqb c "," then "."%char else c.
Definition replace_comma (s : string) : string := map_str comma_to_dot s.

(** [s.startswith(p)] *)
Fixpoint startswith (p s : string) : bool :=
  match p, s with
  | EmptyString, _ => true
  | String a p', String b s' => Ascii.eqb a b && startswith p' s'
  | String _ _, EmptyString => false
  end.
(** [p in s] for strings *)
Fixpoint contains (p s : string) : bool :=
  startswith p s ||
  match s with
  | EmptyString => false
  | String _ r => contains p r
  end.


(** [x in xs] for a tuple, list or set of strings *)
Definition mem (x : string) (xs : list string) : bool :=
  existsb (String.eqb x) xs.
Fixpoint count_occ_str (x : string) (xs : list string) : nat :=
  match xs with
  | [] => 0
  | y :: r => (if String.eqb x y then 1 else 0) + count_occ_str x r
  end.
Fixpoint nodupb (xs : list string) : bool :=
  match xs with
  | [] => true
  | x :: r => negb (mem x r) && nodupb r
  end.

(** [str(n)] for integers *)
Definition str_of_nat (n : nat) : string := NilZero.string_of_uint (Nat.to_uint n).
Definition str_of_Z (z : Z) : string := NilZero.string_of_int (Z.to_int z).
Definition str_of_N (n : N) : string := NilZero.string_of_uint (N.to_uint n).

Fixpoint repeat_str (c : ascii) (n : nat) : string :=
  match n with
  | O => EmptyString
  | S k => String c (repeat_str c k)
  end.

(** ** Floats

    A float is named by a decimal: [FDec neg m e] is the binary64 number
    nearest to [(-1)^neg * m * 10^e], kept with [m] free of trailing
    zeros ([0] is [FDec _ 0 0]).  Rounding to binary64 and overflow are
    not modelled: two decimals of more than 15 significant digits that
    Python rounds to one float stay apart here. *)
Inductive pyfloat : Type :=
| FNan
| FInf (neg : bool)
| FDec (neg : bool) (m : N) (e : Z).

Definition digit_of (c : ascii) : N := N.of_nat (code c - 48).

(** The digits at the head of [s], and what follows them. *)
Fixpoint span_digits (s : string) : list N * string :=
  match s with
  | String c r =>
      if isdigit c then let (ds, rest) := span_digits r in (digit_of c :: ds, rest)
      else ([], s)
  | EmptyString => ([], EmptyString)
  end.

Definition digits_value (ds : list N) : N :=
  fold_left (fun acc d => (acc * 10 + d)%N) ds 0%N.

(** Trailing zeros of a digit string move into the exponent. *)
Fixpoint drop_trailing_zeros (ds : list N) : list N * nat :=
  match ds with
  | [] => ([], 0)
  | d :: r =>
      match drop_trailing_zeros r with
      | ([], k) => if (d =? 0)%N then ([], S k) else ([d], k)
      | (r', k) => (d :: r', k)
      end
  end.

Definition mk_float (neg : bool) (ds : list N) (e : Z) : pyfloat :=
  let (ds', k) := drop_trailing_zeros ds in
  let m := digits_value ds' in
  if (m =? 0)%N then FDec neg 0 0 else FDec neg m (e + Z.of_nat k).

Definition take_sign (s : string) : bool * string :=
  match s with
  | String "-" r => (true, r)
  | String "+" r => (false, r)
  | _ => (false, s)
  end.

(** Underscores may only stand between two digits; they are removed. *)
Fixpoint drop_underscores (prev : ascii) (s : string) : option string :=
  match s with
  | EmptyString => if Ascii.eqb prev "_" then None else Some EmptyString
  | String c r =>
      if Ascii.eqb c "_" then
        if isdigit prev then drop_underscores c r else None
      else if Ascii.eqb prev "_" && negb (isdigit c) then None
      else match drop_underscores c r with
           | Some r' => Some (String c r')
           | None => None
           end
  end.

(** The numeric forms: [digits [. digits] [e[+-]digits]] with at least
    one digit before the exponent. *)
Definition parse_decimal (neg : bool) (s : string) : option pyfloat :=
  let (ip, r1) := span_digits s in
  let (fp, r2) := match r1 with
                  | String "." r => span_digits r
                  | _ => ([], r1)
                  end in
  match (ip ++ fp)%list with
  | [] => None
  | ds =>
      let frac := Z.of_nat (List.length fp) in
      match r2 with
      | EmptyString => Some (mk_float neg ds (- frac))
      | String c r3 =>
          if Ascii.eqb c "e" || Ascii.eqb c "E" then
            let (eneg, r4) := take_sign r3 in
            match span_digits r4 with
            | (d :: ed, EmptyString) =>
                let ev := Z.of_N (digits_value (d :: ed)) in
                Some (mk_float neg ds ((if eneg then - ev else ev) - frac))
            | _ => None
            end
          else None
      end
  end.

(** [float(s)] for a string: [None] stands for [ValueError]. *)
Definition float_of_str (s : string) : option pyfloat :=
  match drop_underscores "000" (strip s) with
  | None => None
  | Some t =>
      let (neg, body) := take_sign t in
      let l := lower body in
      if String.eqb l "inf" || String.eqb l "infinity" then Some (FInf neg)
      else if String.eqb l "nan" then Some FNan
      else parse_decimal neg body
  end.

(** [float(z)] for an integer. *)
Definition float_of_Z (z : Z) : pyfloat :=
  mk_float (z <? 0)%Z (fst (span_digits (str_of_N (Z.abs_N z)))) 0.

(** [repr] of a float: positional when the decimal point falls within
    the digits or near them, scientific otherwise. *)
Definition float_str (f : pyfloat) : string :=
  match f with
  | FNan => "nan"
  | FInf neg => if neg then "-inf" else "inf"
  | FDec neg m e =>
      let sign := if neg then "-" else "" in
      if (m =? 0)%N then sign ++ "0.0" else
      let ds := str_of_N m in
      let n := Z.of_nat (String.length ds) in
      let decpt := (n + e)%Z in
      if ((decpt <=? -4) || (16 <? decpt))%Z then
        let x := (decpt - 1)%Z in
        let xs := str_of_N (Z.abs_N x) in
        let xs := if (String.length xs <? 2)%nat then "0" ++ xs else xs in
        sign ++ substring 0 1 ds
             ++ (if (1 <? n)%Z then "." ++ substring 1 (String.length ds - 1) ds else "")
             ++ "e" ++ (if (x <? 0)%Z then "-" else "+") ++ xs
      else if (decpt <=? 0)%Z then
        sign ++ "0." ++ repeat_str "0" (Z.to_nat (- decpt)) ++ ds
      else if (n <=? decpt)%Z then
        sign ++ ds ++ repeat_str "0" (Z.to_nat (decpt - n)) ++ ".0"
      else
        sign ++ substring 0 (Z.to_nat decpt) ds ++ "."
             ++ substring (Z.to_nat decpt) (String.length ds - Z.to_nat decpt) ds
  end.

(** UTF-8 well-formedness, for [bytes.decode()]. *)
Definition is_cont (c : ascii) : bool := ((128 <=? code c) && (code c <=? 191))%nat.
Fixpoint utf8_valid_fuel (fuel : nat) (s : string) : bool :=
  match fuel with
  | O => match s with EmptyString => true | _ => false end
  | S k =>
      match s with
      | EmptyString => true
      | String a r =>
          let n := code a in
          if (n <=? 127)%nat then utf8_valid_fuel k r
          else if ((194 <=? n) && (n <=? 223))%nat then
            match r with
            | String b r1 => is_cont b && utf8_valid_fuel k r1
            | _ => false
            end
          else if ((224 <=? n) && (n <=? 239))%nat then
            match r with
            | String b (String c r2) =>
                is_cont b && is_cont c
                && (if (n =? 224)%nat then (160 <=? code b)%nat else true)
                && (if (n =? 237)%nat then (code b <=? 159)%nat else true)
                && utf8_valid_fuel k r2
            | _ => false
            end
          else if ((240 <=? n) && (n <=? 244))%nat then
            match r with
            | String b (String c (String d r3)) =>
                is_cont b && is_cont c && is_cont d
                && (if (n =? 240)%nat then (144 <=? code b)%nat else true)
                && (if (n =? 244)%nat then (code b <=? 143)%nat else true)
                && utf8_valid_fuel k r3
            | _ => false
            end
          else false
      end
  end.
Definition utf8_valid (s : string) : bool := utf8_valid_fuel (String.length s) s.

(** [b.decode()] *)
Definition decode (b : string) : result string :=
  if utf8_valid b then Ok b
  else Raise (UnicodeDecodeError "'utf-8' codec can't decode bytes").

End Py.

Import Py.
Local Open Scope py_scope.


(* ===================================================================== *)
(** * Data frames *)
(* ===================================================================== *)

Module Pandas.

(** The Python values a frame read from SQL holds.  [OOther] is any other
    object (a [Timestamp], [NaT], a [date]), named by its [str()] text;
    [float()] of such an object raises [TypeError].  numpy scalars stand
    for the Python values they box, and the upcasting [iterrows] applies
    to a row of numeric columns only is not modelled. *)
Inductive pyobj : Type :=
| ONone
| OFloat (f : pyfloat)
| OInt (z : Z)
| OBool (b : bool)
| OStr (s : string)
| OOther (text : string).

(** A cell after normalisation: a value as it was, or the [Timestamp] (or
    [NaT]) that [pd.to_datetime(v, errors="coerce")] makes of [v]. *)
Inductive cell : Type :=
| Val (v : pyobj)
| Datetime (v : pyobj).

Definition NaN : pyobj := OFloat FNan.
Definition None_ : cell := Val ONone.

(** [str(v)], as [Series.astype(str)] applies it. *)
Definition py_str (v : pyobj) : string :=
  match v with
  | ONone => "None"
  | OFloat f => float_str f
  | OInt z => str_of_Z z
  | OBool b => if b then "True" else "False"
  | OStr s => s
  | OOther t => t
  end.

(** A column: its label, whether its dtype is [object], its values. *)
Record column (A : Type) : Type := mk_column {
  col_name : string;
  col_object : bool;
  col_values : list A
}.
Arguments mk_column {A} _ _ _.
Arguments col_name {A} _.
Arguments col_object {A} _.
Arguments col_values {A} _.

(** A frame: [len(df)] and the columns in order. *)
Record DataFrame (A : Type) : Type := mk_frame {
  df_len : nat;
  df_columns : list (column A)
}.
Arguments mk_frame {A} _ _.
Arguments df_len {A} _.
Arguments df_columns {A} _.

(** Every column holds one value per row. *)
Definition well_formed {A} (df : DataFrame A) : Prop :=
  Forall (fun c => List.length (col_values c) = df_len df) (df_columns df).

Definition labels {A} (df : DataFrame A) : list string :=
  map col_name (df_columns df).

(** [df.empty]: no row or no column. *)
Definition empty {A} (df : DataFrame A) : bool :=
  (df_len df =? 0)%nat
  || match df_columns df with [] => true | _ => false end.

(** [df.columns = [c.upper() for c in df.columns]] *)
Definition rename_upper {A} (df : DataFrame A) : DataFrame A :=
  mk_frame (df_len df)
    (map (fun c => mk_column (upper (col_name c)) (col_object c) (col_values c))
         (df_columns df)).

Definition nan_column (name : string) (n : nat) : column cell :=
  mk_column name false (repeat (Val NaN) n).

Definition find_column {A} (name : string) (cs : list (column A))
  : option (column A) :=
  find (fun c => String.eqb (col_name c) name) cs.

(** [df.reindex(columns=cols)]: the columns named, in that order; one the
    frame lacks is filled with NaN.  pandas refuses to reindex an axis
    with a repeated label (unless it is the very list asked for, which no
    list of distinct labels is). *)
Definition reindex (df : DataFrame cell) (cols : list string)
  : result (DataFrame cell) :=
  if nodupb (labels df) then
    Ok (mk_frame (df_len df)
          (map (fun e => match find_column e (df_columns df) with
                         | Some c => c
                         | None => nan_column e (df_len df)
                         end) cols))
  else Raise (ValueError "cannot reindex on an axis with duplicate labels").

(** [df.iterrows()]: each row as the labelled values [row[col]] reads. *)
Definition iterrows (df : DataFrame cell) : list (list (string * cell)) :=
  map (fun i => map (fun c => (col_name c, nth i (col_values c) (Val NaN)))
                    (df_columns df))
      (seq 0 (df_len df)).

(** [row[col]]; the labels asked for are those of the row's own frame. *)
Fixpoint row_get (row : list (string * cell)) (col : string) : cell :=
  match row with
  | [] => Val NaN
  | (k, v) :: r => if String.eqb k col then v else row_get r col
  end.

End Pandas.

Import Pandas.

(* ===================================================================== *)
(** * core/oracle_client.py *)
(* ===================================================================== *)

Module Oracle.

Definition dict_get {A} (d : list (string * A)) (k : string) : option A :=
  match find (fun kv => String.eqb (fst kv) k) d with
  | Some kv => Some (snd kv)
  | None => None
  end.

Definition TABLE_COLUMNS : list (string * list string) :=
  [ ("MXF_TMP_ICMS_SAIDA",
     [ "CODIGO_PRODUTO"; "EAN"; "NCM"; "FUNDAMENTO_LEGAL"; "CEST";
       "FECP"; "SSS_CSOSN"; "SNC_CST"; "SNC_ALQ"; "SNC_ALQST";
       "SNC_RBC"; "SNC_RBCST"; "SNC_CBENEF"; "SNC_ALQ_BENEF";
       "SAC_CST"; "SAC_ALQ"; "SAC_ALQST"; "SAC_RBC"; "SAC_RBCST";
       "SAC_CBENEF"; "SAC_ALQ_BENEF";
       "SVC_CST"; "SVC_ALQ"; "SVC_ALQST"; "SVC_RBC"; "SVC_RBCST" ]);
    ("MXF_TMP_PIS_COFINS",
     [ "CODIGO_PRODUTO"; "EAN"; "NCM"; "COD_NATUREZA_RECEITA";
       "PIS_CST_E"; "PIS_ALQ_E"; "PIS_CST_S"; "PIS_ALQ_S";
       "COFINS_CST_E"; "COFINS_ALQ_E"; "COFINS_CST_S"; "COFINS_ALQ_S";
       "FUNDAMENTO_LEGAL" ]);
    ("MXF_TMP_CBS_IBS",
     [ "CODIGO_PRODUTO"; "EAN"; "CCLASSTRIB"; "CST_CBS_IBS";
       "ALQ_CBS"; "RBC_CBS"; "ALQ_IBS"; "RBC_IBS";
       "ALQ_IBS_MUN"; "RBC_IBS_MUN";
       "ALQ_IS"; "ALQ_IS_ESPEC"; "CST_IS"; "CCLASSTRIB_IS";
       "FUNDAMENTO_LEGAL" ]) ].

Definition TABLE_NUMBER_COLUMNS : list (string * list string) :=
  [ ("MXF_TMP_ICMS_SAIDA",
     [ "FECP"; "SNC_ALQ"; "SNC_ALQST"; "SNC_RBC"; "SNC_RBCST";
       "SNC_ALQ_BENEF";
       "SAC_ALQ"; "SAC_ALQST"; "SAC_RBC"; "SAC_RBCST"; "SAC_ALQ_BENEF";
       "SVC_ALQ"; "SVC_ALQST"; "SVC_RBC"; "SVC_RBCST" ]);
    ("MXF_TMP_PIS_COFINS",
     [ "PIS_ALQ_E"; "PIS_ALQ_S"; "COFINS_ALQ_E"; "COFINS_ALQ_S" ]);
    ("MXF_TMP_CBS_IBS",
     [ "ALQ_CBS"; "RBC_CBS"; "ALQ_IBS"; "RBC_IBS";
       "ALQ_IBS_MUN"; "RBC_IBS_MUN"; "ALQ_IS"; "ALQ_IS_ESPEC" ]) ].

(** [col_name in TABLE_NUMBER_COLUMNS.get(table_name, set())] *)
Definition is_number_column (table_name col_name : string) : bool :=
  match dict_get TABLE_NUMBER_COLUMNS table_name with
  | Some cols => mem col_name cols
  | None => false
  end.

(** ** The server and the driver

    The enterprise database is a set of tables with the rows of the open
    transaction ([working]) and the committed rows.  [refuses] is what the
    server answers to a statement, given those it has run: an error, or
    nothing when it runs it.  A row of a table is the tuple of values
    bound to the positional parameters of its INSERT. *)

Definition row : Type := list cell.

Inductive stmt : Type :=
| Delete (table : string)                        (* DELETE FROM table *)
| InsertMany (table : string) (batch : list row) (* executemany(insert_sql, batch) *)
| Commit
| Rollback.

Record server : Type := mk_server {
  committed : string -> list row;
  working : string -> list row;
  executed : list stmt;
  refuses : list stmt -> stmt -> option exn
}.

Definition upd (f : string -> list row) (t : string) (v : list row)
  : string -> list row :=
  fun t' => if String.eqb t' t then v else f t'.

Definition run_stmt (st : stmt) (s : server) : server :=
  let tr := (executed s ++ [st])%list in
  match st with
  | Delete t => mk_server (committed s) (upd (working s) t []) tr (refuses s)
  | InsertMany t b =>
      mk_server (committed s) (upd (working s) t (working s t ++ b)%list) tr (refuses s)
  | Commit => mk_server (working s) (working s) tr (refuses s)
  | Rollback => mk_server (committed s) (committed s) tr (refuses s)
  end.

(** What the oracledb driver does for one configuration: the outcome of
    [oracledb.connect] in thin mode ([false]) and once thick mode is
    initialised ([true]), of [init_oracle_client(lib_dir)], and of a query
    followed by [fetchone()]. *)
Record driver : Type := mk_driver {
  drv_connect : bool -> option exn;
  drv_init_oracle_client : option string -> option exn;
  drv_fetchone : string -> result (option (list string))
}.

Record config : Type := mk_config {
  host : string;
  port : Z;
  service_name : string;
  username : string;
  password : string;
  instant_client_path : option string
}.

(** Errors the cleaning of values reports through [logger.error]. *)
Inductive log_entry : Type :=
| InvalidNumeric (table_name col_name : string) (value : cell).

Record OracleClient : Type := mk_client {
  cfg : config;
  drv : driver;
  srv : server;
  connection : bool;               (* [self.connection] is set *)
  thick_mode_initialized : bool;
  log : list log_entry
}.

Definition set_srv (c : OracleClient) (s : server) : OracleClient :=
  mk_client (cfg c) (drv c) s (connection c) (thick_mode_initialized c) (log c).
Definition set_connection (c : OracleClient) (b : bool) : OracleClient :=
  mk_client (cfg c) (drv c) (srv c) b (thick_mode_initialized c) (log c).
Definition set_thick (c : OracleClient) (b : bool) : OracleClient :=
  mk_client (cfg c) (drv c) (srv c) (connection c) b (log c).
Definition add_log (c : OracleClient) (l : list log_entry) : OracleClient :=
  mk_client (cfg c) (drv c) (srv c) (connection c) (thick_mode_initialized c)
            (log c ++ l)%list.

(** [instant_client_path], when it is set and not empty. *)
Definition truthy_path (p : option string) : option string :=
  match p with
  | Some EmptyString => None
  | _ => p
  end.

Definition nl : string := String "010" EmptyString.

Definition _init_thick_mode : M OracleClient unit :=
  fun c =>
    if thick_mode_initialized c then (Ok tt, c)
    else
      let instant_client_path := truthy_path (instant_client_path (cfg c)) in
      match drv_init_oracle_client (drv c) instant_client_path with
      | None => (Ok tt, set_thick c true)
      | Some e =>
          (Raise (Exception
             ("Erro ao inicializar modo thick: " ++ exn_str e ++ nl ++ nl
              ++ "Oracle Database < 12.1 detectado, mas Oracle Instant Client não está configurado corretamente."
              ++ nl ++ nl
              ++ "Configure o caminho do Instant Client:" ++ nl
              ++ "Caminho configurado: "
              ++ match instant_client_path with Some p => p | None => "Nenhum" end
              ++ nl ++ nl
              ++ "Verifique se o caminho está correto e o Instant Client está instalado.")),
           c)
      end.

(** [connect]: thin mode first; on DPY-3010, thick mode. *)
Definition connect : M OracleClient bool :=
  fun c =>
    match drv_connect (drv c) (thick_mode_initialized c) with
    | None => (Ok true, set_connection c true)
    | Some (DatabaseError error_code error_message) =>
        if match error_code with Some k => (k =? 3010)%Z | None => false end
           || contains "DPY-3010" error_message
        then
          match _init_thick_mode c with
          | (Raise e, c1) => (Raise e, c1)
          | (Ok _, c1) =>
              match drv_connect (drv c1) true with
              | None => (Ok true, set_connection c1 true)
              | Some e => (Raise e, c1)
              end
          end
        else (Raise (DatabaseError error_code error_message), c)
    | Some e => (Raise e, c)
    end.

(** [disconnect]: closing the session gives up its open transaction; a
    failure of [close()] is logged and the attribute reset all the same. *)
Definition disconnect : M OracleClient unit :=
  fun c =>
    if connection c then
      let s := srv c in
      (Ok tt, set_connection
                (set_srv c (mk_server (committed s) (committed s) (executed s) (refuses s)))
                false)
    else (Ok tt, c).

(** [test_connection] *)
Definition test_connection : M OracleClient (bool * string) :=
  try_except
    (_ <- connect ;;
     c <- get ;;
     _ <- lift (drv_fetchone (drv c) "SELECT 1 FROM DUAL") ;;
     r <- lift (drv_fetchone (drv c) "SELECT banner FROM v$version WHERE ROWNUM = 1") ;;
     version <- lift (match r with
                      | None => Raise (TypeError "'NoneType' object is not subscriptable")
                      | Some [] => Raise (IndexError "tuple index out of range")
                      | Some (v :: _) => Ok v
                      end) ;;
     let mode := if thick_mode_initialized c then "thick" else "thin" in
     _ <- disconnect ;;
     ret (true, "Conexão bem-sucedida (modo " ++ mode ++ ")" ++ nl ++ version))
    (fun e => ret (false, "Erro: " ++ exn_str e)).

(** ** Normalisation and cleaning *)

(** [col] names a date: ["DATA" in col or col.startswith("DT_")]. *)
Definition is_date_label (col : string) : bool :=
  contains "DATA" col || startswith "DT_" col.

(** One value of an [object] column:
    [astype(str).str.replace(",", ".").replace({"": None, "nan": None, "NaN": None})] *)
Definition normalize_value (v : pyobj) : cell :=
  let s := replace_comma (py_str v) in
  if mem s [""; "nan"; "NaN"] then Val ONone else Val (OStr s).

(** One turn of the loop over [df.columns].  With a repeated label
    [df[col]] is a frame: [pd.to_datetime] refuses it and it has no
    [dtype]. *)
Definition normalize_column (all : list string) (c : column pyobj)
  : result (column cell) :=
  let col := col_name c in
  if is_date_label col then
    if (1 <? count_occ_str col all)%nat then
      Raise (ValueError "to assemble mappings requires at least that [year, month, day] be specified")
    else Ok (mk_column col false (map Datetime (col_values c)))
  else if (1 <? count_occ_str col all)%nat then
    Raise (AttributeError "'DataFrame' object has no attribute 'dtype'")
  else if col_object c then
    Ok (mk_column col true (map normalize_value (col_values c)))
  else Ok (mk_column col false (map Val (col_values c))).

Fixpoint normalize_columns (all : list string) (cs : list (column pyobj))
  : result (list (column cell)) :=
  match cs with
  | [] => Ok []
  | c :: r =>
      match normalize_column all c with
      | Raise e => Raise e
      | Ok c' =>
          match normalize_columns all r with
          | Raise e => Raise e
          | Ok r' => Ok (c' :: r')
          end
      end
  end.

Definition _normalize_dataframe_for_oracle (df : DataFrame pyobj)
  : result (DataFrame cell) :=
  match normalize_columns (labels df) (df_columns df) with
  | Raise e => Raise e
  | Ok cs => Ok (mk_frame (df_len df) cs)
  end.

(** [clean_value(value, col_name)], with what it logs. *)
Definition clean_value (table_name : string) (value : cell) (col_name : string)
  : cell * list log_entry :=
  match value with
  | Val ONone => (None_, [])
  | Val (OFloat FNan) => (None_, [])
  | Val (OStr s) =>
      let v := strip s in
      if mem (lower v) ["none"; "null"; ""] then (None_, [])
      else if is_number_column table_name col_name then
        match float_of_str (replace_comma v) with
        | Some f => (Val (OFloat f), [])
        | None => (None_, [InvalidNumeric table_name col_name value])
        end
      else (Val (OStr v), [])
  | Val (OFloat _) => (value, [])
  | Val (OInt z) =>
      if is_number_column table_name col_name
      then (Val (OFloat (float_of_Z z)), []) else (value, [])
  | Val (OBool b) =>
      if is_number_column table_name col_name
      then (Val (OFloat (float_of_Z (if b then 1 else 0))), []) else (value, [])
  | Val (OOther _) | Datetime _ =>
      if is_number_column table_name col_name
      then (None_, [InvalidNumeric table_name col_name value]) else (value, [])
  end.

(** [clean_row]: the cleaned values of one row, in column order. *)
Fixpoint clean_row (table_name : string) (row_ : list (string * cell))
         (columns : list string) : row * list log_entry :=
  match columns with
  | [] => ([], [])
  | col :: r =>
      let (v, l1) := clean_value table_name (row_get row_ col) col in
      let (vs, l2) := clean_row table_name row_ r in
      (v :: vs, (l1 ++ l2)%list)
  end.

(** ** Bulk insert *)

Definition execute (st : stmt) : M OracleClient unit :=
  fun c =>
    match refuses (srv c) (executed (srv c)) st with
    | Some e => (Raise e, c)
    | None => (Ok tt, set_srv c (run_stmt st (srv c)))
    end.

(** [connection.rollback()] *)
Definition rollback : M OracleClient unit :=
  fun c => (Ok tt, set_srv c (run_stmt Rollback (srv c))).

(** The positional placeholders of the INSERT written for each table. *)
Definition expected_cols_of (table_name : string) : option nat :=
  if String.eqb table_name "MXF_TMP_ICMS_SAIDA" then Some 26
  else if String.eqb table_name "MXF_TMP_PIS_COFINS" then Some 13
  else if String.eqb table_name "MXF_TMP_CBS_IBS" then Some 15
  else None.

(** The loop over [df.iterrows()], then the last batch. *)
Fixpoint insert_rows (table_name : string) (expected_cols : nat)
         (columns : list string) (batch_size : nat)
         (rows : list (list (string * cell)))
         (batch : list row) (inserted_rows : nat) : M OracleClient nat :=
  match rows with
  | [] =>
      match batch with
      | [] => ret inserted_rows
      | _ =>
          _ <- execute (InsertMany table_name batch) ;;
          ret (inserted_rows + List.length batch)
      end
  | row_ :: rest =>
      let (cleaned, errors) := clean_row table_name row_ columns in
      _ <- modify (fun c => add_log c errors) ;;
      if negb (List.length cleaned =? expected_cols)%nat then
        raise (ValueError
                 (table_name ++ " | Quantidade de colunas inválida: "
                  ++ str_of_nat (List.length cleaned)
                  ++ " (esperado " ++ str_of_nat expected_cols ++ ")"))
      else
        let batch' := (batch ++ [cleaned])%list in
        if (batch_size <=? List.length batch')%nat then
          _ <- execute (InsertMany table_name batch') ;;
          insert_rows table_name expected_cols columns batch_size rest []
                      (inserted_rows + List.length batch')
        else
          insert_rows table_name expected_cols columns batch_size rest batch'
                      inserted_rows
  end.

Definition _insert_dataframe_oracle (df : DataFrame cell) (table_name : string)
           (batch_size : nat) : M OracleClient nat :=
  match dict_get TABLE_COLUMNS table_name with
  | None => raise (ValueError ("Tabela não mapeada em TABLE_COLUMNS: " ++ table_name))
  | Some expected_columns =>
      df1 <- lift (reindex (rename_upper df) expected_columns) ;;
      match expected_cols_of table_name with
      | None => raise (ValueError ("Tabela não suportada: " ++ table_name))
      | Some expected_cols =>
          insert_rows table_name expected_cols (labels df1) batch_size
                      (iterrows df1) [] 0
      end
  end.

(** ** Writing the staging tables *)

Definition table_map : list (string * string) :=
  [ ("icms_entrada", "MXF_TMP_ICMS_ENTRADA");
    ("icms_saida", "MXF_TMP_ICMS_SAIDA");
    ("pis_cofins", "MXF_TMP_PIS_COFINS");
    ("cbs_ibs", "MXF_TMP_CBS_IBS") ].

(** The loop over [table_map.items()]. *)
Fixpoint insert_tables (dataframes : list (string * DataFrame pyobj))
         (items : list (string * string)) (total_inserted : nat)
  : M OracleClient nat :=
  match items with
  | [] => ret total_inserted
  | (df_key, table_name) :: rest =>
      match dict_get dataframes df_key with
      | None => insert_tables dataframes rest total_inserted
      | Some df =>
          if empty df then insert_tables dataframes rest total_inserted
          else if String.eqb table_name "MXF_TMP_ICMS_ENTRADA" then
            insert_tables dataframes rest total_inserted
          else
            df' <- lift (_normalize_dataframe_for_oracle df) ;;
            inserted <- _insert_dataframe_oracle df' table_name 5000 ;;
            insert_tables dataframes rest (total_inserted + inserted)
      end
  end.

Definition success_message (total_inserted : nat) : string :=
  "✓ " ++ str_of_nat total_inserted ++ " registros inseridos no Oracle!".

Definition write_dataframes_to_tmp_tables
           (dataframes : list (string * DataFrame pyobj))
  : M OracleClient (bool * string) :=
  try_except
    (c <- get ;;
     _ <- (if connection c then ret true else connect) ;;
     _ <- execute (Delete "MXF_TMP_ICMS_ENTRADA") ;;
     _ <- execute (Delete "MXF_TMP_ICMS_SAIDA") ;;
     _ <- execute (Delete "MXF_TMP_PIS_COFINS") ;;
     _ <- execute (Delete "MXF_TMP_CBS_IBS") ;;
     total_inserted <- insert_tables dataframes table_map 0 ;;
     _ <- execute Commit ;;
     ret (true, success_message total_inserted))
    (fun e =>
       c <- get ;;
       _ <- (if connection c then rollback else ret tt) ;;
       raise e).

End Oracle.

(* ===================================================================== *)
(** * config/encryption.py *)
(* ===================================================================== *)

Module Encryption.

(** The Fernet cipher under the key derived from the master password (the
    cryptography library): [fernet_encrypt entropy data] is the token for
    [data] under the IV and time stamp drawn, [fernet_decrypt] the bytes
    of a token it accepts. *)
Record fernet : Type := mk_fernet {
  fernet_encrypt : string -> string -> string;
  fernet_decrypt : string -> result string
}.

Definition encrypt (F : fernet) (entropy plaintext : string) : result string :=
  if String.eqb plaintext "" then Ok ""
  else decode (fernet_encrypt F entropy plaintext).

Definition decrypt (F : fernet) (ciphertext : string) : result string :=
  if String.eqb ciphertext "" then Ok ""
  else match fernet_decrypt F ciphertext with
       | Ok decrypted => decode decrypted
       | Raise e => Raise e
       end.

(** bcrypt: [hashpw password salt] and [checkpw password hashed]. *)
Record bcrypt : Type := mk_bcrypt {
  hashpw : string -> string -> result string;
  checkpw : string -> string -> result bool
}.

(** [hash_password]; [salt] is the draw of [bcrypt.gensalt(rounds=12)]. *)
Definition hash_password (B : bcrypt) (salt password : string) : result string :=
  match hashpw B password salt with
  | Ok hashed => decode hashed
  | Raise e => Raise e
  end.

Definition verify_password (B : bcrypt) (password hashed : string) : result bool :=
  checkpw B password hashed.

End Encryption.

(* ===================================================================== *)
(** * config/database.py *)
(* ===================================================================== *)

Module Database.

Import Encryption.

(** The rows of the SQLite tables.  [is_active] holds 0 or 1 and is a
    [bool]; a time stamp is an integer. *)
Record usuario : Type := mk_usuario {
  u_id : Z;
  u_username : string;
  u_password_hash : string;
  u_nome_completo : option string;
  u_email : option string;
  u_is_active : bool;
  u_created_at : Z;
  u_last_login : option Z
}.

Record cliente : Type := mk_cliente {
  cl_id : Z;
  cl_nome : string;
  cl_cnpj : string;
  cl_is_active : bool;
  cl_created_at : Z;
  cl_updated_at : Z
}.

Record config_oriontax_row : Type := mk_config_row {
  co_id : Z;
  co_host : string;
  co_port : Z;
  co_database_name : string;
  co_username : string;
  co_password_encrypted : string;
  co_use_ssl : bool;
  co_is_active : bool;
  co_created_at : Z;
  co_updated_at : Z
}.

Record agendamento : Type := mk_agendamento {
  ag_id : Z;
  ag_tipo_operacao : string;
  ag_frequencia : string;
  ag_dias_semana : option string;
  ag_hora : string;
  ag_is_active : bool;
  ag_ultima_execucao : option Z;
  ag_proxima_execucao : option Z;
  ag_created_at : Z
}.

(** The store: each table in rowid order, with the AUTOINCREMENT counter
    of the tables the model inserts into. *)
Record db : Type := mk_db {
  usuarios : list usuario;
  clientes : list cliente;
  seq_clientes : Z;
  config_oriontax : list config_oriontax_row;
  seq_config_oriontax : Z;
  agendamentos : list agendamento;
  seq_agendamentos : Z
}.

Definition set_usuarios (d : db) (us : list usuario) : db :=
  mk_db us (clientes d) (seq_clientes d) (config_oriontax d)
        (seq_config_oriontax d) (agendamentos d) (seq_agendamentos d).
Definition set_clientes (d : db) (cs : list cliente) (sq : Z) : db :=
  mk_db (usuarios d) cs sq (config_oriontax d)
        (seq_config_oriontax d) (agendamentos d) (seq_agendamentos d).
Definition set_config_oriontax (d : db) (cs : list config_oriontax_row) (sq : Z) : db :=
  mk_db (usuarios d) (clientes d) (seq_clientes d) cs sq
        (agendamentos d) (seq_agendamentos d).
Definition set_agendamentos (d : db) (ags : list agendamento) (sq : Z) : db :=
  mk_db (usuarios d) (clientes d) (seq_clientes d) (config_oriontax d)
        (seq_config_oriontax d) ags sq.

(** The rowid an AUTOINCREMENT insert takes: one past the largest ever
    used. *)
Definition next_id (ids : list Z) (sq : Z) : Z :=
  (fold_right Z.max sq ids + 1)%Z.

(** ** Clients *)

Definition clean_cnpj (cnpj : string) : string := filter_str isdigit cnpj.

Definition cnpj_taken (cnpj : string) (rows : list cliente) : bool :=
  existsb (fun r => String.eqb (cl_cnpj r) cnpj) rows.

Definition create_cliente (now : Z) (nome cnpj : string) : M db bool :=
  try_except
    (let cnpj_limpo := clean_cnpj cnpj in
     if negb (String.length cnpj_limpo =? 14)%nat then ret false
     else
       d <- get ;;
       if cnpj_taken cnpj_limpo (clientes d) then
         raise (IntegrityError "UNIQUE constraint failed: clientes.cnpj")
       else
         let id := next_id (map cl_id (clientes d)) (seq_clientes d) in
         _ <- modify (fun d =>
                set_clientes d
                  (clientes d ++ [mk_cliente id nome cnpj_limpo true now now])%list id) ;;
         ret true)
    (fun _ => ret false).




(** [UPDATE clientes SET is_active = 0 WHERE id = ?] *)
Definition delete_cliente (cliente_id : Z) : M db bool :=
  try_except
    (_ <- modify (fun d =>
           set_clientes d
             (map (fun r => if (cl_id r =? cliente_id)%Z
                            then mk_cliente (cl_id r) (cl_nome r) (cl_cnpj r) false
                                            (cl_created_at r) (cl_updated_at r)
                            else r) (clientes d))
             (seq_clientes d)) ;;
     ret true)
    (fun _ => ret false).


(** ** The OrionTax configuration *)

(** The dict [get_oriontax_config] returns: the row without
    [password_encrypted], with [password]. *)
Record oriontax_config : Type := mk_oriontax_config {
  cfg_id : Z;
  cfg_host : string;
  cfg_port : Z;
  cfg_database_name : string;
  cfg_username : string;
  cfg_use_ssl : bool;
  cfg_is_active : bool;
  cfg_created_at : Z;
  cfg_updated_at : Z;
  cfg_password : string
}.

Definition deactivate (r : config_oriontax_row) : config_oriontax_row :=
  mk_config_row (co_id r) (co_host r) (co_port r) (co_database_name r)
                (co_username r) (co_password_encrypted r) (co_use_ssl r)
                false (co_created_at r) (co_updated_at r).

Definition save_oriontax_config (F : fernet) (entropy : string) (now : Z)
           (host : string) (port : Z) (database_name username password : string)
           (use_ssl : bool) : M db bool :=
  try_except
    (password_enc <- lift (encrypt F entropy password) ;;
     _ <- modify (fun d =>
            set_config_oriontax d (map deactivate (config_oriontax d))
                                (seq_config_oriontax d)) ;;
     _ <- modify (fun d =>
            let id := next_id (map co_id (config_oriontax d)) (seq_config_oriontax d) in
            set_config_oriontax d
              (config_oriontax d
               ++ [mk_config_row id host port database_name username password_enc
                                 use_ssl true now now])%list id) ;;
     ret true)
    (fun _ => ret false).

(** [ORDER BY created_at DESC LIMIT 1]; among rows of one time stamp the
    first in rowid order is taken. *)
Fixpoint latest (rows : list config_oriontax_row) : option config_oriontax_row :=
  match rows with
  | [] => None
  | r :: rest =>
      match latest rest with
      | Some r' => if (co_created_at r <? co_created_at r')%Z then Some r' else Some r
      | None => Some r
      end
  end.

(** The dict made of the row fetched. *)
Definition config_of_row (F : fernet) (r : config_oriontax_row)
  : result oriontax_config :=
  match decrypt F (co_password_encrypted r) with
  | Ok p =>
      Ok (mk_oriontax_config (co_id r) (co_host r) (co_port r) (co_database_name r)
            (co_username r) (co_use_ssl r) (co_is_active r) (co_created_at r)
            (co_updated_at r) p)
  | Raise e => Raise e
  end.

Definition get_oriontax_config (F : fernet) : M db (option oriontax_config) :=
  d <- get ;;
  match latest (filter co_is_active (config_oriontax d)) with
  | Some config =>
      config_dict <- lift (config_of_row F config) ;;
      ret (Some config_dict)
  | None => ret None
  end.

(** ** Schedules *)

Definition frequencia_map : list (string * string) :=
  [ ("daily", "DIARIA"); ("weekly", "SEMANAL"); ("monthly", "MENSAL") ].

(** [frequencia_map.get(schedule_type, 'DIARIA')] *)
Definition frequencia_of (schedule_type : string) : string :=
  match Oracle.dict_get frequencia_map schedule_type with
  | Some f => f
  | None => "DIARIA"
  end.

(** [json.dumps([schedule_day])] when a day is given. *)
Definition dias_semana_of (schedule_day : option Z) : option string :=
  match schedule_day with
  | Some d => Some ("[" ++ str_of_Z d ++ "]")
  | None => None
  end.

(** The CHECK constraints of [agendamentos]. *)
Definition check_agendamento (tipo_operacao frequencia : string) : bool :=
  mem tipo_operacao ["ENVIAR"; "BUSCAR"]
  && mem frequencia ["DIARIA"; "SEMANAL"; "MENSAL"].

Definition create_schedule (now : Z) (operation_type schedule_type schedule_time : string)
           (schedule_day : option Z) (is_active : bool) : M db Z :=
  let frequencia := frequencia_of schedule_type in
  let dias_semana := dias_semana_of schedule_day in
  d <- get ;;
  if negb (check_agendamento operation_type frequencia) then
    raise (IntegrityError "CHECK constraint failed")
  else
    let schedule_id := next_id (map ag_id (agendamentos d)) (seq_agendamentos d) in
    _ <- modify (fun d =>
           set_agendamentos d
             (agendamentos d
              ++ [mk_agendamento schedule_id operation_type frequencia dias_semana
                                 schedule_time is_active None None now])%list
             schedule_id) ;;
    ret schedule_id.


(** ** Accounts *)

Definition with_password_hash (new_hash : string) (u : usuario) : usuario :=
  mk_usuario (u_id u) (u_username u) new_hash (u_nome_completo u) (u_email u)
             (u_is_active u) (u_created_at u) (u_last_login u).

Definition change_password (B : bcrypt) (salt : string)
           (username old_password new_password : string) : M db (bool * string) :=
  try_except
    (d <- get ;;
     match find (fun u => String.eqb (u_username u) username && u_is_active u)
                (usuarios d) with
     | None => ret (false, "Usuário não encontrado")
     | Some user =>
         ok <- lift (verify_password B old_password (u_password_hash user)) ;;
         if negb ok then ret (false, "Senha atual incorreta")
         else
           new_hash <- lift (hash_password B salt new_password) ;;
           _ <- modify (fun d =>
                  set_usuarios d
                    (map (fun u => if (u_id u =? u_id user)%Z
                                   then with_password_hash new_hash u
                                   else u) (usuarios d))) ;;
           ret (true, "Senha alterada com sucesso!")
     end)
    (fun e => ret (false, "Erro ao alterar senha: " ++ exn_str e)).

End Database.

(* ===================================================================== *)
(** * Vocabulary of the statements *)
(* ===================================================================== *)

Module Spec.

Import Oracle.





(** A value of an [object] column as it is bound: normalised, then
    cleaned. *)
Definition cleaned (table_name col_name : string) (v : pyobj)
  : cell * list log_entry :=
  clean_value table_name (normalize_value v) col_name.




End Spec.

(* ===================================================================== *)
(** * Sample stores, frames and servers *)
(* ===================================================================== *)

Module Samples.

Import Database Encryption Oracle Spec.

(** A store with an active and an inactive client and one schedule. *)
Definition demo_db : db :=
  mk_db [ mk_usuario 1 "admin" "salt0$admin123" (Some "Administrador") None true 0 None ]
        [ mk_cliente 1 "Alfa" "11111111000111" true 10 10;
          mk_cliente 2 "Beta" "22222222000122" false 20 20 ] 2
        [ mk_config_row 1 "old.example" 5432 "tax" "svc" "tok:old" true true 3 3 ] 1
        [ mk_agendamento 1 "ENVIAR" "SEMANAL" (Some "[2]") "09:30" true None None 5 ] 1.

(** Stand-ins for the two libraries, used to run the store on examples:
    a hasher that keeps salt and password side by side, and a cipher that
    tags the text. *)
Definition demo_bcrypt : bcrypt :=
  mk_bcrypt (fun password salt => Ok (salt ++ "$" ++ password))
            (fun password hashed =>
               match index 0 "$" hashed with
               | Some i =>
                   Ok (String.eqb (substring (S i) (String.length hashed) hashed) password)
               | None => Raise (ValueError "Invalid salt")
               end).

Definition demo_fernet : fernet :=
  mk_fernet (fun _ data => "tok:" ++ data)
            (fun token =>
               if startswith "tok:" token
               then Ok (substring 4 (String.length token) token)
               else Raise InvalidToken).

(** An enterprise server that runs every statement, with a row left in
    each staging table by an earlier run. *)
Definition old_row : row := [Val (OStr "old")].
Definition demo_server : server :=
  mk_server (fun _ => [old_row]) (fun _ => [old_row]) [] (fun _ _ => None).

Definition demo_config : config :=
  mk_config "erp.example" 1521 "ORCL" "mxf" "secret" None.

(** A driver that connects in thin mode and answers both queries. *)
Definition good_driver : driver :=
  mk_driver (fun _ => None) (fun _ => None)
            (fun q => if startswith "SELECT 1" q then Ok (Some ["1"])
                      else Ok (Some ["Oracle Database 19c"])).

(** A driver that connects, and whose server then fails the queries. *)
Definition failing_probe_driver : driver :=
  mk_driver (fun _ => None) (fun _ => None)
            (fun _ => Raise (DatabaseError (Some 942%Z)
                               "ORA-00942: table or view does not exist")).

(** A driver that needs thick mode (DPY-3010 in thin mode). *)
Definition thick_driver : driver :=
  mk_driver (fun thick => if thick then None
                          else Some (DatabaseError (Some 3010%Z) "DPY-3010: not supported"))
            (fun _ => None)
            (fun q => if startswith "SELECT 1" q then Ok (Some ["1"])
                      else Ok (Some ["Oracle Database 11g"])).

(** A driver that cannot reach the server. *)
Definition unreachable_driver : driver :=
  mk_driver (fun _ => Some (DatabaseError (Some 6005%Z) "DPY-6005: cannot connect"))
            (fun _ => None) (fun _ => Ok None).

Definition client_of (dr : driver) : OracleClient :=
  mk_client demo_config dr demo_server false false [].


(** Frames as read from the cloud staging tables. *)
Definition pis_frame : DataFrame pyobj :=
  mk_frame 2
    [ mk_column "cnpj" true [OStr "12345678000190"; OStr "12345678000190"];
      mk_column "codigo_produto" true [OStr "P1"; OStr "P2"];
      mk_column "ean" true [OStr "NAN"; OStr " Null "];
      mk_column "pis_alq_e" true [OStr "12,5"; OStr "not-a-number"];
      mk_column "pis_alq_s" true [OStr " nan "; OStr "nan"];
      mk_column "cofins_alq_e" false [OFloat (FDec false 76 (-1)); NaN] ].

Definition saida_frame : DataFrame pyobj :=
  mk_frame 1
    [ mk_column "codigo_produto" true [OStr "P1"];
      mk_column "fecp" true [OStr "2"] ].

Definition entrada_frame : DataFrame pyobj :=
  mk_frame 1 [ mk_column "codigo_produto" true [OStr "P9"] ].



End Samples.

(* ===================================================================== *)
(** * config/database.py: accounts, listings, connections, logs *)
(* ===================================================================== *)

Module Store.

Import Encryption Database.

(** [try: m  except sqlite3.IntegrityError: h]: any other exception goes
    on to the caller. *)
Definition except_integrity {S A} (m : M S A) (h : M S A) : M S A :=
  fun s => match m s with
           | (Raise (IntegrityError _), s') => h s'
           | other => other
           end.

(** ** Accounts *)

(** The dict made of the columns [authenticate_user] selects. *)
Record user_dict : Type := mk_user_dict {
  ud_id : Z;
  ud_username : string;
  ud_password_hash : string;
  ud_nome_completo : option string;
  ud_email : option string;
  ud_is_active : bool
}.

Definition dict_of_user (u : usuario) : user_dict :=
  mk_user_dict (u_id u) (u_username u) (u_password_hash u) (u_nome_completo u)
               (u_email u) (u_is_active u).

(** [WHERE username = ? AND is_active = 1], first row. *)
Definition select_active_user (username : string) (d : db) : option usuario :=
  find (fun u => String.eqb (u_username u) username && u_is_active u) (usuarios d).

Definition with_last_login (now : Z) (u : usuario) : usuario :=
  mk_usuario (u_id u) (u_username u) (u_password_hash u) (u_nome_completo u)
             (u_email u) (u_is_active u) (u_created_at u) (Some now).

Definition authenticate_user (B : bcrypt) (now : Z) (username password : string)
  : M db (option user_dict) :=
  d <- get ;;
  match select_active_user username d with
  | None => ret None
  | Some user =>
      ok <- lift (verify_password B password (u_password_hash user)) ;;
      if ok then
        _ <- modify (fun d =>
               set_usuarios d
                 (map (fun u => if (u_id u =? u_id user)%Z
                                then with_last_login now u else u)
                      (usuarios d))) ;;
        ret (Some (dict_of_user user))
      else ret None
  end.

Definition username_taken (username : string) (d : db) : bool :=
  existsb (fun u => String.eqb (u_username u) username) (usuarios d).

(** [INSERT INTO usuarios (username, password_hash, nome_completo, email)].
    No row of [usuarios] is ever deleted, so the AUTOINCREMENT counter is
    the largest id of the table. *)
Definition insert_usuario (now : Z) (username password_hash : string)
           (nome_completo email : option string) : M db unit :=
  d <- get ;;
  if username_taken username d then
    raise (IntegrityError "UNIQUE constraint failed: usuarios.username")
  else
    modify (fun d =>
      set_usuarios d
        (usuarios d
         ++ [mk_usuario (next_id (map u_id (usuarios d)) 0) username password_hash
                        nome_completo email true now None])%list).

Definition create_user (B : bcrypt) (salt : string) (now : Z)
           (username password : string) (nome_completo email : option string)
  : M db bool :=
  except_integrity
    (password_hash <- lift (hash_password B salt password) ;;
     _ <- insert_usuario now username password_hash nome_completo email ;;
     ret true)
    (ret false).

Definition _create_default_user (B : bcrypt) (salt : string) (now : Z)
  : M db unit :=
  d <- get ;;
  let count := List.length (usuarios d) in
  if (count =? 0)%nat then
    password_hash <- lift (hash_password B salt "admin123") ;;
    insert_usuario now "admin" password_hash (Some "Administrador") None
  else ret tt.

(** ** Clients *)

(** [SELECT * FROM clientes WHERE id = ? AND is_active = 1] *)
Definition get_cliente (cliente_id : Z) : M db (option cliente) :=
  d <- get ;;
  ret (find (fun r => (cl_id r =? cliente_id)%Z && cl_is_active r) (clientes d)).

(** [ORDER BY nome]: texts compare byte by byte; rows of one name keep
    their rowid order. *)
Fixpoint insert_by_nome (r : cliente) (rows : list cliente) : list cliente :=
  match rows with
  | [] => [r]
  | r' :: rest =>
      if String.leb (cl_nome r) (cl_nome r') then r :: rows
      else r' :: insert_by_nome r rest
  end.
Definition order_by_nome (rows : list cliente) : list cliente :=
  fold_right insert_by_nome [] rows.

Definition get_all_clientes : M db (list cliente) :=
  d <- get ;;
  ret (order_by_nome (filter cl_is_active (clientes d))).

(** ** Schedules, read side *)

(** What [json.loads] gives. *)
#[warnings="-register-all"]
Inductive jvalue : Type :=
| JNull
| JBool (b : bool)
| JInt (z : Z)
| JFloat (f : pyfloat)
| JString (s : string)
| JArray (items : list jvalue)
| JObject (members : list (string * jvalue)).

(** The dict [get_schedule] returns. *)
Record schedule : Type := mk_schedule {
  sc_id : Z;
  sc_operation_type : string;
  sc_schedule_type : string;
  sc_schedule_time : string;
  sc_schedule_day : option jvalue;
  sc_is_active : bool;
  sc_last_run : option Z
}.

Definition schedule_type_map : list (string * string) :=
  [ ("DIARIA", "daily"); ("SEMANAL", "weekly"); ("MENSAL", "monthly") ].

(** [schedule_type_map.get(frequencia, 'daily')] *)
Definition schedule_type_of (frequencia : string) : string :=
  match Oracle.dict_get schedule_type_map frequencia with
  | Some t => t
  | None => "daily"
  end.

(** [s[0]] of a text that is not empty: its first character, which in
    UTF-8 is a byte and the continuation bytes after it. *)
Definition is_continuation (c : ascii) : bool :=
  ((128 <=? code c) && (code c <? 192))%nat.
Fixpoint continuation (s : string) : string :=
  match s with
  | String c r => if is_continuation c then String c (continuation r) else EmptyString
  | EmptyString => EmptyString
  end.
Definition first_char (c : ascii) (r : string) : string := String c (continuation r).

(** The day read from [dias_semana]: nothing for NULL or the empty text;
    otherwise [dias[0]] of what [json.loads] gives when that is not empty,
    any exception leaving it unset ([len] of a number or of a boolean and
    [dias[0]] of an object raise). *)
Definition schedule_day_of (loads : string -> result jvalue)
           (dias_semana : option string) : option jvalue :=
  match dias_semana with
  | None | Some EmptyString => None
  | Some text =>
      match loads text with
      | Ok (JArray (first :: _)) => Some first
      | Ok (JString (String ch r)) => Some (JString (first_char ch r))
      | _ => None
      end
  end.

Definition schedule_of_row (loads : string -> result jvalue) (row : agendamento)
  : schedule :=
  mk_schedule (ag_id row) (ag_tipo_operacao row)
              (schedule_type_of (ag_frequencia row)) (ag_hora row)
              (schedule_day_of loads (ag_dias_semana row))
              (ag_is_active row) (ag_ultima_execucao row).

Definition get_schedule (loads : string -> result jvalue) (schedule_id : Z)
  : M db (option schedule) :=
  d <- get ;;
  match find (fun a => (ag_id a =? schedule_id)%Z) (agendamentos d) with
  | Some row => ret (Some (schedule_of_row loads row))
  | None => ret None
  end.

(** [ORDER BY id] *)
Fixpoint insert_by_id (a : agendamento) (rows : list agendamento)
  : list agendamento :=
  match rows with
  | [] => [a]
  | a' :: rest =>
      if (ag_id a <=? ag_id a')%Z then a :: rows else a' :: insert_by_id a rest
  end.
Definition order_by_id (rows : list agendamento) : list agendamento :=
  fold_right insert_by_id [] rows.

Definition get_all_schedules (loads : string -> result jvalue)
  : M db (list schedule) :=
  d <- get ;;
  ret (map (schedule_of_row loads) (order_by_id (agendamentos d))).


(** [UPDATE agendamentos SET ultima_execucao = CURRENT_TIMESTAMP
     WHERE tipo_operacao = ?] *)
Definition update_schedule_last_run (now : Z) (operation_type : string)
  : M db unit :=
  modify (fun d =>
    set_agendamentos d
      (map (fun a => if String.eqb (ag_tipo_operacao a) operation_type
                     then mk_agendamento (ag_id a) (ag_tipo_operacao a)
                            (ag_frequencia a) (ag_dias_semana a) (ag_hora a)
                            (ag_is_active a) (Some now) (ag_proxima_execucao a)
                            (ag_created_at a)
                     else a) (agendamentos d))
      (seq_agendamentos d)).

(** ** The enterprise connections and the execution log

    The two tables the store record of [Database] leaves out. *)

Record config_oracle_row : Type := mk_oracle_row {
  or_id : Z;
  or_nome_conexao : string;
  or_host : string;
  or_port : Z;
  or_service_name : string;
  or_username : string;
  or_password_encrypted : string;
  or_instant_client_path : option string;
  or_is_active : bool;
  or_created_at : Z;
  or_updated_at : Z
}.

Record log_row : Type := mk_log_row {
  lg_id : Z;
  lg_tipo_operacao : string;
  lg_status : string;
  lg_mensagem : option string;
  lg_registros_processados : Z;
  lg_tempo_execucao_segundos : pyfloat;
  lg_error_details : option string;
  lg_created_at : Z
}.

Record tables : Type := mk_tables {
  config_oracle : list config_oracle_row;
  seq_config_oracle : Z;
  logs_execucao : list log_row;
  seq_logs_execucao : Z
}.

Definition set_logs (t : tables) (rows : list log_row) (sq : Z) : tables :=
  mk_tables (config_oracle t) (seq_config_oracle t) rows sq.


(** The dict [get_oracle_config] returns. *)
Record oracle_config : Type := mk_oracle_config {
  oc_id : Z;
  oc_nome_conexao : string;
  oc_host : string;
  oc_port : Z;
  oc_service_name : string;
  oc_username : string;
  oc_instant_client_path : option string;
  oc_is_active : bool;
  oc_created_at : Z;
  oc_updated_at : Z;
  oc_password : string
}.

Fixpoint latest_oracle (rows : list config_oracle_row) : option config_oracle_row :=
  match rows with
  | [] => None
  | r :: rest =>
      match latest_oracle rest with
      | Some r' => if (or_created_at r <? or_created_at r')%Z then Some r' else Some r
      | None => Some r
      end
  end.

Definition oracle_config_of_row (F : fernet) (r : config_oracle_row)
  : result oracle_config :=
  match decrypt F (or_password_encrypted r) with
  | Ok p =>
      Ok (mk_oracle_config (or_id r) (or_nome_conexao r) (or_host r) (or_port r)
            (or_service_name r) (or_username r) (or_instant_client_path r)
            (or_is_active r) (or_created_at r) (or_updated_at r) p)
  | Raise e => Raise e
  end.

(** [if nome_conexao:] holds for a name that is given and not empty. *)
Definition get_oracle_config (F : fernet) (nome_conexao : option string)
  : M tables (option oracle_config) :=
  t <- get ;;
  let config :=
    match nome_conexao with
    | None | Some EmptyString =>
        latest_oracle (filter or_is_active (config_oracle t))
    | Some name =>
        find (fun r => String.eqb (or_nome_conexao r) name && or_is_active r)
             (config_oracle t)
    end in
  match config with
  | Some config =>
      config_dict <- lift (oracle_config_of_row F config) ;;
      ret (Some config_dict)
  | None => ret None
  end.

(** [add_log]: the CHECK on [status] is the only constraint it can
    break. *)
Definition add_log (now : Z) (tipo_operacao status : string)
           (mensagem : option string) (registros : Z) (tempo : pyfloat)
           (error_details : option string) : M tables unit :=
  if mem status ["SUCESSO"; "ERRO"; "EM_ANDAMENTO"] then
    modify (fun t =>
      let id := next_id (map lg_id (logs_execucao t)) (seq_logs_execucao t) in
      set_logs t
        (logs_execucao t
         ++ [mk_log_row id tipo_operacao status mensagem registros tempo
                        error_details now])%list id)
  else raise (IntegrityError "CHECK constraint failed").




End Store.

(* ===================================================================== *)
(** * gui/client_dialog.py *)
(* ===================================================================== *)

Module ClientDialog.

Import Database Store.






End ClientDialog.

(* ===================================================================== *)
(** * core/scheduler.py *)
(* ===================================================================== *)

Module Scheduler.

Import Store.

(** [s.split(sep)] for a separator of one character. *)
Fixpoint split (sep : ascii) (s : string) : list string :=
  match s with
  | EmptyString => [EmptyString]
  | String c r =>
      if Ascii.eqb c sep then EmptyString :: split sep r
      else match split sep r with
           | h :: t => String c h :: t
           | [] => [String c EmptyString]
           end
  end.

(** [int(s)] for a string: white space around, a sign, decimal digits
    with single underscores between them; [None] stands for [ValueError].
    The bound recent interpreters put on the number of digits is left
    out. *)
Definition int_of_str (s : string) : option Z :=
  match drop_underscores "000" (strip s) with
  | None => None
  | Some t =>
      let (neg, body) := take_sign t in
      match span_digits body with
      | (d :: ds, EmptyString) =>
          let v := Z.of_N (digits_value (d :: ds)) in
          Some (if neg then (- v)%Z else v)
      | _ => None
      end
  end.

(** [int(s)], raising; the message quotes the literal as it is. *)
Definition int (s : string) : result Z :=
  match int_of_str s with
  | Some z => Ok z
  | None => Raise (ValueError ("invalid literal for int() with base 10: '" ++ s ++ "'"))
  end.

(** The arguments [_create_trigger] gives [CronTrigger]; the library
    raises for a value a field does not take. *)
Record cron_fields : Type := mk_cron {
  cf_day : option jvalue;
  cf_day_of_week : option jvalue;
  cf_hour : Z;
  cf_minute : Z
}.

Record apscheduler : Type := mk_apscheduler {
  CronTrigger : cron_fields -> option exn
}.

Record job : Type := mk_job {
  job_id : string;
  job_name : string;
  job_trigger : cron_fields;
  job_args : list string
}.

Inductive log_entry : Type :=
| Inactive (schedule_id : Z)
| InvalidType (schedule_type : string)
| TriggerError (e : exn)
| NoTrigger (schedule_id : Z).

(** [self.jobs], and the jobs of [self.scheduler] once it runs (the
    order [get_jobs] lists them in is not modelled). *)
Record Scheduler : Type := mk_scheduler {
  jobs : list (Z * job);
  scheduler : list job;
  log : list log_entry
}.

Definition add_log (l : log_entry) : M Scheduler unit :=
  modify (fun s => mk_scheduler (jobs s) (scheduler s) (log s ++ [l])%list).

Definition _create_trigger (A : apscheduler) (schedule : Store.schedule)
  : M Scheduler (option cron_fields) :=
  try_except
    (let schedule_time := sc_schedule_time schedule in
     parts <- lift (match split ":" schedule_time with
                    | [hour; minute] => Ok (hour, minute)
                    | [] | [_] =>
                        Raise (ValueError "not enough values to unpack (expected 2, got 1)")
                    | _ => Raise (ValueError "too many values to unpack (expected 2)")
                    end) ;;
     let (hour, minute) := (parts : string * string) in
     hour <- lift (int hour) ;;
     minute <- lift (int minute) ;;
     let schedule_type := sc_schedule_type schedule in
     let build fields :=
       match CronTrigger A fields with
       | None => ret (Some fields)
       | Some e => raise e
       end in
     if String.eqb schedule_type "daily" then
       build (mk_cron None None hour minute)
     else if String.eqb schedule_type "weekly" then
       build (mk_cron None (sc_schedule_day schedule) hour minute)
     else if String.eqb schedule_type "monthly" then
       build (mk_cron (sc_schedule_day schedule) None hour minute)
     else
       _ <- add_log (InvalidType schedule_type) ;;
       ret None)
    (fun e => _ <- add_log (TriggerError e) ;; ret None).

Definition job_id_of (schedule_id : Z) : string :=
  "schedule_" ++ str_of_Z schedule_id.

Definition in_jobs (schedule_id : Z) (s : Scheduler) : bool :=
  existsb (fun kv => (fst kv =? schedule_id)%Z) (jobs s).

Definition remove_job (schedule_id : Z) : M Scheduler unit :=
  let job_id := job_id_of schedule_id in
  s <- get ;;
  _ <- (if mem job_id (map Scheduler.job_id (scheduler s)) then
          modify (fun s =>
            mk_scheduler (jobs s)
              (filter (fun j => negb (String.eqb (Scheduler.job_id j) job_id))
                      (scheduler s))
              (log s))
        else ret tt) ;;
  s <- get ;;
  if in_jobs schedule_id s then
    modify (fun s =>
      mk_scheduler (filter (fun kv => negb (fst kv =? schedule_id)%Z) (jobs s))
                   (scheduler s) (log s))
  else ret tt.

(** [self.jobs[key] = value] *)
Fixpoint dict_set (key : Z) (value : job) (d : list (Z * job)) : list (Z * job) :=
  match d with
  | [] => [(key, value)]
  | (k, v) :: rest =>
      if (k =? key)%Z then (k, value) :: rest else (k, v) :: dict_set key value rest
  end.

(** [self.scheduler.add_job(..., id=job_id, replace_existing=True)] *)
Definition scheduler_add_job (j : job) (store : list job) : list job :=
  (filter (fun j' => negb (String.eqb (job_id j') (job_id j))) store ++ [j])%list.

Definition add_job (A : apscheduler) (schedule : Store.schedule) : M Scheduler unit :=
  if negb (sc_is_active schedule) then add_log (Inactive (sc_id schedule))
  else
    s <- get ;;
    _ <- (if in_jobs (sc_id schedule) s then remove_job (sc_id schedule)
          else ret tt) ;;
    trigger <- _create_trigger A schedule ;;
    match trigger with
    | None => add_log (NoTrigger (sc_id schedule))
    | Some trigger =>
        let job := mk_job (job_id_of (sc_id schedule)) (sc_operation_type schedule)
                          trigger [sc_operation_type schedule] in
        modify (fun s =>
          mk_scheduler (dict_set (sc_id schedule) job (jobs s))
                       (scheduler_add_job job (scheduler s)) (log s))
    end.

Definition update_job (A : apscheduler) (schedule : Store.schedule) : M Scheduler unit :=
  _ <- remove_job (sc_id schedule) ;;
  add_job A schedule.

Fixpoint add_jobs (A : apscheduler) (schedules : list Store.schedule)
  : M Scheduler unit :=
  match schedules with
  | [] => ret tt
  | schedule :: rest => _ <- add_job A schedule ;; add_jobs A rest
  end.

(** [load_schedules], given what [get_all_schedules] returned. *)
Definition load_schedules (A : apscheduler) (schedules : list Store.schedule)
  : M Scheduler unit :=
  add_jobs A schedules.

End Scheduler.

(* ===================================================================== *)
(** * core/scheduler.py: the scheduled runs *)
(* ===================================================================== *)

Module Sync.

Import Pandas Oracle Encryption Database Store.

(** The four frames a read returns, and the dict made of them. *)
Record four_frames : Type := mk_four {
  df_icms_entrada : DataFrame pyobj;
  df_icms_saida : DataFrame pyobj;
  df_pis_cofins : DataFrame pyobj;
  df_cbs_ibs : DataFrame pyobj
}.

Definition to_dict (f : four_frames) : list (string * DataFrame pyobj) :=
  [ ("icms_entrada", df_icms_entrada f); ("icms_saida", df_icms_saida f);
    ("pis_cofins", df_pis_cofins f); ("cbs_ibs", df_cbs_ibs f) ].

(** [sum(len(df) for df in dataframes.values())] *)
Definition total_records (dataframes : list (string * DataFrame pyobj)) : nat :=
  list_sum (map (fun kv => df_len (snd kv)) dataframes).

(** The cloud client (core/oriontax_client.py), by what its methods give
    a run: what [connect] raises, the frames [read_tmp_tables_to_dataframes]
    returns for a CNPJ, the pair [write_dataframes_to_views] returns. *)
Record OrionTaxClient : Type := mk_oriontax {
  ot_connect : option exn;
  ot_read_tmp_tables_to_dataframes : string -> result four_frames;
  ot_write_dataframes_to_views :
    string -> list (string * DataFrame pyobj) -> result (bool * string)
}.

(** What a run finds outside the store: the cipher, the enterprise driver
    and the views it reads for a configuration, the cloud for a
    configuration, and the text of [traceback.format_exc()]. *)
Record env : Type := mk_env {
  cipher : fernet;
  oracledb : Oracle.config -> driver;
  read_sql_views : Oracle.config -> result four_frames;
  oriontax : oriontax_config -> OrionTaxClient;
  format_exc : exn -> string
}.

(** A thread started for one client. *)
Record worker : Type := mk_worker {
  wk_operation_type : string;
  wk_oracle_config : oracle_config;
  wk_oriontax_config : oriontax_config;
  wk_cnpj : string;
  wk_nome : string
}.

(** The local store, the enterprise server, and the threads started. *)
Record world : Type := mk_world {
  w_db : db;
  w_tables : tables;
  w_oracle : server;
  w_started : list worker
}.

(** A method of the store run in the world.  The thread-safe variants
    ([get_oracle_config_threadsafe], [get_oriontax_config_threadsafe],
    [get_all_clientes_threadsafe], [add_log_threadsafe]) run the statements
    of the methods they double, on a connection of their own. *)
Definition on_db {A} (m : M db A) : M world A :=
  fun w => let (r, d) := m (w_db w) in
           (r, mk_world d (w_tables w) (w_oracle w) (w_started w)).
Definition on_tables {A} (m : M tables A) : M world A :=
  fun w => let (r, t) := m (w_tables w) in
           (r, mk_world (w_db w) t (w_oracle w) (w_started w)).

(** [OracleClient(oracle_config)], then methods of that client: the
    session works on the server of the world. *)
Definition config_of (oc : oracle_config) : Oracle.config :=
  mk_config (oc_host oc) (oc_port oc) (oc_service_name oc) (oc_username oc)
            (oc_password oc) (oc_instant_client_path oc).

Definition on_oracle {A} (E : env) (oc : oracle_config) (m : M OracleClient A)
  : M world A :=
  fun w =>
    let c := mk_client (config_of oc) (oracledb E (config_of oc)) (w_oracle w)
                       false false [] in
    let (r, c') := m c in
    (r, mk_world (w_db w) (w_tables w) (srv c') (w_started w)).

(** [read_views_to_dataframes] *)
Definition read_views_to_dataframes (E : env) : M OracleClient four_frames :=
  try_except
    (c <- get ;;
     _ <- (if connection c then ret true else connect) ;;
     lift (read_sql_views E (cfg c)))
    (fun e => raise e).

Definition cliente_prefix (nome_cliente : string) : string :=
  "Cliente: " ++ nome_cliente.

(** [_execute_sync_for_client]; [now] is the time of the log row and
    [tempo] the seconds elapsed. *)
Definition _execute_sync_for_client (E : env) (now : Z) (tempo : pyfloat)
           (operation_type : string) (oracle_config : oracle_config)
           (oriontax_config : oriontax_config) (cnpj nome_cliente : string)
  : M world unit :=
  let zero := float_of_Z 0 in
  let log_outcome (tipo : string) (total : nat) (outcome : bool * string) :=
    let (success, message) := outcome in
    if success then
      on_tables (Store.add_log now tipo "SUCESSO"
                   (Some (cliente_prefix nome_cliente ++ " - " ++ message))
                   (Z.of_nat total) tempo None)
    else
      on_tables (Store.add_log now tipo "ERRO"
                   (Some (cliente_prefix nome_cliente)) 0 zero (Some message)) in
  try_except
    (if String.eqb operation_type "ENVIAR" then
       frames <- on_oracle E oracle_config
                   (_ <- connect ;;
                    frames <- read_views_to_dataframes E ;;
                    _ <- disconnect ;;
                    ret frames) ;;
       let dataframes := to_dict frames in
       let total := total_records dataframes in
       let oriontax_client := oriontax E oriontax_config in
       _ <- lift (match ot_connect oriontax_client with
                  | Some e => Raise e
                  | None => Ok true
                  end) ;;
       outcome <- lift (ot_write_dataframes_to_views oriontax_client cnpj dataframes) ;;
       log_outcome "ENVIAR" total outcome
     else if String.eqb operation_type "BUSCAR" then
       let oriontax_client := oriontax E oriontax_config in
       _ <- lift (match ot_connect oriontax_client with
                  | Some e => Raise e
                  | None => Ok true
                  end) ;;
       frames <- lift (ot_read_tmp_tables_to_dataframes oriontax_client cnpj) ;;
       let dataframes := to_dict frames in
       let total := total_records dataframes in
       outcome <- on_oracle E oracle_config
                    (_ <- connect ;;
                     outcome <- write_dataframes_to_tmp_tables dataframes ;;
                     _ <- disconnect ;;
                     ret outcome) ;;
       log_outcome "BUSCAR" total outcome
     else ret tt)
    (fun e =>
       let error_msg := "Erro: " ++ exn_str e ++ nl ++ nl ++ format_exc E e in
       on_tables (Store.add_log now operation_type "ERRO"
                    (Some (cliente_prefix nome_cliente)) 0 zero (Some error_msg))).

(** [_execute_sync]: one thread per active client, then the time stamp
    of the schedules of that operation. *)
Definition _execute_sync (E : env) (now : Z) (operation_type : string)
  : M world unit :=
  try_except
    (oracle_config <- on_tables (get_oracle_config (cipher E) None) ;;
     oriontax_config <- on_db (get_oriontax_config (cipher E)) ;;
     match oracle_config, oriontax_config with
     | None, _ => ret tt
     | Some _, None => ret tt
     | Some oracle_config, Some oriontax_config =>
         clientes <- on_db get_all_clientes ;;
         match clientes with
         | [] => ret tt
         | _ =>
             _ <- modify (fun w =>
                    mk_world (w_db w) (w_tables w) (w_oracle w)
                      (w_started w
                       ++ map (fun cliente =>
                                 mk_worker operation_type oracle_config oriontax_config
                                           (cl_cnpj cliente) (cl_nome cliente))
                              clientes)%list) ;;
             on_db (update_schedule_last_run now operation_type)
         end
     end)
    (fun _ => ret tt).

End Sync.

(* ===================================================================== *)
(** * Vocabulary of the further statements *)
(* ===================================================================== *)

Module Props.

Import Pandas Oracle Encryption Database Store.




(** From [w] to [w'] a run has added one row to the execution log, for
    the operation [tipo] at time [now], and has left the rest of the
    local store alone. *)
Definition logged_once (now : Z) (tipo : string) (w w' : Sync.world) : Prop :=
  Sync.w_db w' = Sync.w_db w
  /\ Sync.w_started w' = Sync.w_started w
  /\ config_oracle (Sync.w_tables w') = config_oracle (Sync.w_tables w)
  /\ exists row,
       logs_execucao (Sync.w_tables w')
       = (logs_execucao (Sync.w_tables w) ++ [row])%list
       /\ lg_tipo_operacao row = tipo
       /\ In (lg_status row) ["SUCESSO"; "ERRO"]
       /\ lg_created_at row = now
       /\ ~ In (lg_id row) (map lg_id (logs_execucao (Sync.w_tables w))).

(** The orders of the listings. *)
Definition nome_le (a b : cliente) : Prop := String.leb (cl_nome a) (cl_nome b) = true.
Definition id_le (a b : agendamento) : Prop := (ag_id a <= ag_id b)%Z.



(** The hasher verifies what it hashed, and its hashes are ASCII. *)
Definition bcrypt_verifies (B : bcrypt) (salt password : string) : Prop :=
  exists hashed,
    hashpw B password salt = Ok hashed
    /\ utf8_valid hashed = true
    /\ checkpw B password hashed = Ok true.

(** The cipher gives back the text of its token, and its tokens are
    texts that are not empty. *)
Definition fernet_round_trip (F : fernet) (entropy plaintext : string) : Prop :=
  fernet_decrypt F (fernet_encrypt F entropy plaintext) = Ok plaintext
  /\ utf8_valid (fernet_encrypt F entropy plaintext) = true
  /\ fernet_encrypt F entropy plaintext <> "".

(** The text of a time of day, as the schedule form writes it
    ([toString('HH:mm')]). *)
Definition two_digits (n : nat) : string :=
  if (n <? 10)%nat then "0" ++ str_of_nat n else str_of_nat n.
Definition hh_mm (h m : nat) : string := two_digits h ++ ":" ++ two_digits m.

(** The text of the time [h]:[m] splits at the colon and reads back as
    the two numbers. *)
Definition parses_time (h m : nat) : bool :=
  match Scheduler.split ":" (hh_mm h m) with
  | [hour; minute] =>
      match Scheduler.int_of_str hour, Scheduler.int_of_str minute with
      | Some a, Some b => (a =? Z.of_nat h)%Z && (b =? Z.of_nat m)%Z
      | _, _ => false
      end
  | _ => false
  end.

(** How many times a character occurs in a text. *)
Fixpoint count_char (c : ascii) (s : string) : nat :=
  match s with
  | EmptyString => 0
  | String a r => (if Ascii.eqb a c then 1 else 0) + count_char c r
  end.

(** [self.jobs] mirrors the jobs of the scheduler: one entry per
    schedule, under the id made of the schedule's. *)
Definition registry_ok (s : Scheduler.Scheduler) : Prop :=
  NoDup (map fst (Scheduler.jobs s))
  /\ Forall (fun kv => Scheduler.job_id (snd kv) = Scheduler.job_id_of (fst kv))
            (Scheduler.jobs s)
  /\ Permutation (map snd (Scheduler.jobs s)) (Scheduler.scheduler s).

End Props.

(* ===================================================================== *)
(** * Further samples *)
(* ===================================================================== *)

Module Demo.

Import Encryption Database Store Samples.

(** A stand-in for [json.loads] that reads a list of one integer. *)
Definition demo_loads (text : string) : result jvalue :=
  match text with
  | String "[" r =>
      match Scheduler.int_of_str (substring 0 (String.length r - 1) r) with
      | Some z => Ok (JArray [JInt z])
      | None => Raise (ValueError "Expecting value")
      end
  | _ => Raise (ValueError "Expecting value")
  end.

(** A stand-in for [CronTrigger] that checks the hour and the minute. *)
Definition demo_apscheduler : Scheduler.apscheduler :=
  Scheduler.mk_apscheduler
    (fun f =>
       if ((0 <=? Scheduler.cf_hour f) && (Scheduler.cf_hour f <? 24)
           && (0 <=? Scheduler.cf_minute f) && (Scheduler.cf_minute f <? 60))%Z
       then None
       else Some (ValueError "the value is out of range for this field")).

(** A scheduler with no job. *)
Definition idle : Scheduler.Scheduler := Scheduler.mk_scheduler [] [] [].

(** The connections table with one entry, and an empty log. *)
Definition demo_tables : tables :=
  mk_tables
    [ mk_oracle_row 1 "producao" "ora.example" 1521 "ORCL" "sync" "tok:pw" None true 7 7 ]
    1 [] 0.

(** A cloud that connects and returns the three sample frames and an
    empty fourth; a world made of the sample store and server. *)
Definition demo_four : Sync.four_frames :=
  Sync.mk_four entrada_frame saida_frame pis_frame (Pandas.mk_frame 0 []).

Definition demo_env : Sync.env :=
  Sync.mk_env demo_fernet (fun _ => good_driver)
    (fun _ => Raise (DatabaseError (Some 942%Z)
                       "ORA-00942: table or view does not exist"))
    (fun _ => Sync.mk_oriontax None (fun _ => Ok demo_four)
                (fun _ _ => Ok (true, "ok")))
    (fun _ => "Traceback (most recent call last):").

Definition demo_world : Sync.world :=
  Sync.mk_world demo_db demo_tables demo_server [].

Definition demo_oracle_config : oracle_config :=
  mk_oracle_config 1 "producao" "ora.example" 1521 "ORCL" "sync" None true 7 7 "pw".

Definition demo_oriontax_config : oriontax_config :=
  mk_oriontax_config 1 "old.example" 5432 "tax" "svc" true true 3 3 "old".

End Demo.

(* ===================================================================== *)
(** * Properties *)
(* ===================================================================== *)

Import Database Encryption Oracle Samples.

Ltac run_py :=
  unfold try_except, bind, ret, raise, get, modify, lift; simpl.

(** ** Python's [float] *)

Example float_of_str_12_5 : float_of_str "12.5" = Some (FDec false 125 (-1)).
Proof. reflexivity. Qed.
Example float_of_str_forms :
  float_of_str " 1_000 " = Some (FDec false 1 3)
  /\ float_of_str "-.5e-3" = Some (FDec true 5 (-4))
  /\ float_of_str "NaN" = Some FNan
  /\ float_of_str "-Infinity" = Some (FInf true)
  /\ float_of_str "1e" = None
  /\ float_of_str "not-a-number" = None
  /\ float_of_str "1__0" = None
  /\ float_of_str "" = None.
Proof. repeat split; reflexivity. Qed.
Example float_str_forms :
  float_str (FDec false 125 (-1)) = "12.5"
  /\ float_str (FDec false 1 16) = "1e+16"
  /\ float_str (FDec false 1 15) = "1000000000000000.0"
  /\ float_str (FDec false 1 (-4)) = "0.0001"
  /\ float_str (FDec true 15 (-6)) = "-1.5e-05"
  /\ float_str (float_of_Z 1200) = "1200.0".
Proof. repeat split; reflexivity. Qed.

(** ** Encryption *)

(** X1.  The guards of [encrypt] and [decrypt]: the empty text is returned
    as it is, whatever the cipher. *)
Lemma encrypt_decrypt_empty :
  forall (F : fernet) (entropy : string),
    encrypt F entropy "" = Ok "" /\ decrypt F "" = Ok "".
Proof. intros F entropy. split; reflexivity. Qed.

(** With a cipher that gives back the bytes it was given, under a token
    that is a non-empty ASCII text, [decrypt] undoes [encrypt]. *)
Lemma decrypt_encrypt :
  forall (F : fernet) (entropy plaintext token : string),
    fernet_decrypt F (fernet_encrypt F entropy plaintext) = Ok plaintext ->
    utf8_valid plaintext = true ->
    encrypt F entropy plaintext = Ok token ->
    token <> "" ->
    decrypt F token = Ok plaintext.
Proof.
  intros F entropy plaintext token Hrt Hv He Hne.
  unfold encrypt in He. destruct (String.eqb plaintext "") eqn:Ep.
  - injection He as <-. contradiction.
  - unfold Py.decode in He.
    destruct (utf8_valid (fernet_encrypt F entropy plaintext)); [|discriminate].
    injection He as <-. unfold decrypt.
    destruct (String.eqb (fernet_encrypt F entropy plaintext) "") eqn:Et.
    + apply String.eqb_eq in Et. contradiction.
    + rewrite Hrt. unfold Py.decode. rewrite Hv. reflexivity.
Qed.

Lemma decrypt_encrypt_witness :
  decrypt demo_fernet "tok:secret" = Ok "secret".
Proof.
  apply (decrypt_encrypt demo_fernet "iv" "secret" "tok:secret");
    [reflexivity | reflexivity | reflexivity | discriminate].
Defined.

(** ** Strings *)



(** ** Schedules *)




(** ** Clients *)




Lemma create_cliente_spec :
  forall now nome cnpj d,
    create_cliente now nome cnpj d =
    if negb (String.length (clean_cnpj cnpj) =? 14)%nat then (Ok false, d)
    else if cnpj_taken (clean_cnpj cnpj) (clientes d) then (Ok false, d)
    else let id := next_id (map cl_id (clientes d)) (seq_clientes d) in
         (Ok true,
          set_clientes d
            (clientes d ++ [mk_cliente id nome (clean_cnpj cnpj) true now now])%list id).
Proof.
  intros. unfold create_cliente. run_py.
  destruct (negb (String.length (clean_cnpj cnpj) =? 14)%nat); simpl; [reflexivity|].
  destruct (cnpj_taken (clean_cnpj cnpj) (clientes d)); reflexivity.
Qed.


Lemma delete_cliente_spec :
  forall id d,
    delete_cliente id d =
    (Ok true,
     set_clientes d
       (map (fun r => if (cl_id r =? id)%Z
                      then mk_cliente (cl_id r) (cl_nome r) (cl_cnpj r) false
                                      (cl_created_at r) (cl_updated_at r)
                      else r) (clientes d))
       (seq_clientes d)).
Proof. reflexivity. Qed.







(** ** Accounts *)

Lemma change_password_spec :
  forall B salt username old_password new_password d,
    change_password B salt username old_password new_password d =
    match find (fun u => String.eqb (u_username u) username && u_is_active u)
               (usuarios d) with
    | None => (Ok (false, "Usuário não encontrado"), d)
    | Some user =>
        match verify_password B old_password (u_password_hash user) with
        | Raise e => (Ok (false, "Erro ao alterar senha: " ++ exn_str e), d)
        | Ok false => (Ok (false, "Senha atual incorreta"), d)
        | Ok true =>
            match hash_password B salt new_password with
            | Raise e => (Ok (false, "Erro ao alterar senha: " ++ exn_str e), d)
            | Ok new_hash =>
                (Ok (true, "Senha alterada com sucesso!"),
                 set_usuarios d
                   (map (fun u => if (u_id u =? u_id user)%Z
                                  then with_password_hash new_hash u else u)
                        (usuarios d)))
            end
        end
    end.
Proof.
  intros. unfold change_password. run_py.
  destruct (find _ (usuarios d)) as [user|]; [|reflexivity].
  destruct (verify_password B old_password (u_password_hash user)) as [[|]|e];
    simpl; try reflexivity.
  destruct (hash_password B salt new_password); reflexivity.
Qed.

(** C4.  [change_password] checks the old password before it writes: with
    no active account of that name, or with an old password that does not
    verify, it returns false with the message of that case and the store is
    the one it was given; it returns true only when the old password
    verified, and then the hash of the new password replaces
    [password_hash] in the row of that account and nothing else changes.
    It never raises. *)
Theorem C4_change_password_verifies_first :
  forall (B : bcrypt) (salt username old_password new_password : string) (d : db),
    let found := find (fun u => String.eqb (u_username u) username && u_is_active u)
                      (usuarios d) in
    (found = None ->
     change_password B salt username old_password new_password d
     = (Ok (false, "Usuário não encontrado"), d))
    /\ (forall user,
          found = Some user ->
          verify_password B old_password (u_password_hash user) = Ok false ->
          change_password B salt username old_password new_password d
          = (Ok (false, "Senha atual incorreta"), d))
    /\ (forall msg d',
          change_password B salt username old_password new_password d
          = (Ok (true, msg), d') ->
          exists user new_hash,
            found = Some user
            /\ verify_password B old_password (u_password_hash user) = Ok true
            /\ hash_password B salt new_password = Ok new_hash
            /\ d' = set_usuarios d
                      (map (fun u => if (u_id u =? u_id user)%Z
                                     then with_password_hash new_hash u else u)
                           (usuarios d)))
    /\ (exists b msg d',
          change_password B salt username old_password new_password d
          = (Ok (b, msg), d')
          /\ (b = false -> d' = d)).
Proof.
  intros B salt username old_password new_password d found.
  rewrite change_password_spec. fold found.
  split; [intro H; rewrite H; reflexivity|].
  split; [intros user Hf Hv; rewrite Hf, Hv; reflexivity|].
  destruct found as [user|]; [|split; [discriminate|do 3 eexists; split; reflexivity]].
  destruct (verify_password B old_password (u_password_hash user)) as [[|]|e] eqn:Ev;
    [|split; [discriminate|do 3 eexists; split; reflexivity]..].
  destruct (hash_password B salt new_password) as [h|e] eqn:Eh;
    [|split; [discriminate|do 3 eexists; split; reflexivity]].
  split.
  - intros msg d' H. injection H as Hm Hd. subst d'.
    exists user, h. repeat split; assumption || reflexivity.
  - do 3 eexists. split; [reflexivity|discriminate].
Qed.

Lemma C4_witness :
  change_password demo_bcrypt "salt1" "nobody" "x" "y" demo_db
  = (Ok (false, "Usuário não encontrado"), demo_db)
  /\ change_password demo_bcrypt "salt1" "admin" "wrong" "y" demo_db
     = (Ok (false, "Senha atual incorreta"), demo_db)
  /\ exists d',
       change_password demo_bcrypt "salt1" "admin" "admin123" "s3cret" demo_db
       = (Ok (true, "Senha alterada com sucesso!"), d')
       /\ map u_password_hash (usuarios d') = ["salt1$s3cret"].
Proof.
  destruct (C4_change_password_verifies_first demo_bcrypt "salt1" "nobody" "x" "y" demo_db)
    as [H1 _].
  destruct (C4_change_password_verifies_first demo_bcrypt "salt1" "admin" "wrong" "y"
              demo_db) as [_ [H2 _]].
  destruct (C4_change_password_verifies_first demo_bcrypt "salt1" "admin" "admin123"
              "s3cret" demo_db) as [_ [_ [H3 _]]].
  split; [exact (H1 eq_refl)|]. split; [exact (H2 _ eq_refl eq_refl)|].
  eexists. split; [reflexivity|].
  destruct (H3 _ _ eq_refl) as (user & h & Hf & _ & Hh & Hd).
  reflexivity.
Defined.

(** ** The OrionTax configuration *)

Lemma filter_active_deactivate :
  forall rows, filter co_is_active (map deactivate rows) = [].
Proof.
  induction rows as [|r rest IH]; simpl; [reflexivity | exact IH].
Qed.

Lemma save_oriontax_config_spec :
  forall F entropy now host port database_name username password use_ssl d,
    save_oriontax_config F entropy now host port database_name username password
                         use_ssl d =
    match encrypt F entropy password with
    | Raise _ => (Ok false, d)
    | Ok enc =>
        let old := map deactivate (config_oriontax d) in
        let id := next_id (map co_id old) (seq_config_oriontax d) in
        (Ok true,
         set_config_oriontax d
           (old ++ [mk_config_row id host port database_name username enc
                                  use_ssl true now now])%list id)
    end.
Proof.
  intros F entropy now h p dbn usr pw use_ssl d.
  unfold save_oriontax_config. run_py.
  destruct (encrypt F entropy pw); reflexivity.
Qed.

(** C5.  A successful [save_oriontax_config] keeps every earlier row, each
    with [is_active = 0] and otherwise as it was, and adds one row that is
    active; that row is then the only active one, and
    [get_oriontax_config] returns its data, the password decrypted: the
    password saved, when the cipher gives back the bytes it was given. *)
Theorem C5_single_active_config :
  forall (F : fernet) (entropy : string) (now : Z) (host : string) (port : Z)
         (database_name username password : string) (use_ssl : bool) (d d' : db),
    save_oriontax_config F entropy now host port database_name username password
                         use_ssl d = (Ok true, d') ->
    exists enc new_id,
      let new := mk_config_row new_id host port database_name username enc
                               use_ssl true now now in
      encrypt F entropy password = Ok enc
      /\ config_oriontax d' = (map deactivate (config_oriontax d) ++ [new])%list
      /\ filter co_is_active (config_oriontax d') = [new]
      /\ List.length (filter co_is_active (config_oriontax d')) = 1
      /\ get_oriontax_config F d'
         = (match config_of_row F new with
            | Ok c => Ok (Some c)
            | Raise e => Raise e
            end, d')
      /\ (fernet_decrypt F (fernet_encrypt F entropy password) = Ok password ->
          fernet_encrypt F entropy password <> "" ->
          utf8_valid password = true ->
          get_oriontax_config F d'
          = (Ok (Some (mk_oriontax_config new_id host port database_name username
                         use_ssl true now now password)), d')).
Proof.
  intros F entropy now h p dbn usr pw use_ssl d d' H.
  rewrite save_oriontax_config_spec in H.
  destruct (encrypt F entropy pw) as [enc|e] eqn:Ee; [|discriminate].
  simpl in H. injection H as <-.
  exists enc, (next_id (map co_id (map deactivate (config_oriontax d)))
                       (seq_config_oriontax d)).
  simpl.
  assert (Hf : forall new, co_is_active new = true ->
             filter co_is_active (map deactivate (config_oriontax d) ++ [new])%list
             = [new]).
  { intros new Hn. rewrite filter_app, filter_active_deactivate. simpl.
    rewrite Hn. reflexivity. }
  assert (Hg : forall new, co_is_active new = true ->
             get_oriontax_config F
               (set_config_oriontax d
                  (map deactivate (config_oriontax d) ++ [new])%list (co_id new))
             = (match config_of_row F new with
                | Ok c => Ok (Some c)
                | Raise e => Raise e
                end,
                set_config_oriontax d
                  (map deactivate (config_oriontax d) ++ [new])%list (co_id new))).
  { intros new Hn. unfold get_oriontax_config. run_py. rewrite Hf by exact Hn. simpl.
    destruct (config_of_row F new); reflexivity. }
  split; [reflexivity|]. split; [reflexivity|].
  split; [apply Hf; reflexivity|]. split; [rewrite Hf; reflexivity|].
  match goal with |- context [get_oriontax_config F (set_config_oriontax d
                                 (_ ++ [?r])%list _)] => set (new := r) end.
  pose proof (Hg new eq_refl) as Hg'. cbn [co_id new] in Hg'.
  split; [exact Hg'|].
  intros Hrt Hne Hv. rewrite Hg'. unfold config_of_row, new.
  cbn [co_password_encrypted].
  assert (Hd : decrypt F enc = Ok pw).
  { destruct (String.eqb pw "") eqn:Ep.
    - unfold encrypt in Ee. rewrite Ep in Ee. injection Ee as <-.
      apply String.eqb_eq in Ep. subst pw. reflexivity.
    - apply (decrypt_encrypt F entropy pw enc Hrt Hv Ee).
      unfold encrypt in Ee. rewrite Ep in Ee. unfold Py.decode in Ee.
      destruct (utf8_valid (fernet_encrypt F entropy pw)); [|discriminate].
      injection Ee as <-. exact Hne. }
  rewrite Hd. reflexivity.
Qed.

Lemma C5_witness :
  exists d',
    save_oriontax_config demo_fernet "iv" 9 "new.example" 5432 "tax" "svc" "pw" true
                         demo_db = (Ok true, d')
    /\ map co_is_active (config_oriontax d') = [false; true]
    /\ fst (get_oriontax_config demo_fernet d')
       = Ok (Some (mk_oriontax_config 2 "new.example" 5432 "tax" "svc" true true 9 9 "pw")).
Proof.
  eexists. split; [reflexivity|].
  destruct (C5_single_active_config demo_fernet "iv" 9 "new.example" 5432 "tax" "svc"
              "pw" true demo_db _ eq_refl) as (enc & nid & He & Hc & _ & _ & _ & Hg).
  split.
  - rewrite Hc. reflexivity.
  - rewrite (Hg eq_refl ltac:(discriminate) eq_refl).
    vm_compute in Hc. injection Hc as <-. reflexivity.
Defined.

(** ** The enterprise client: [test_connection] *)

Lemma connect_ok :
  forall c b c1, connect c = (Ok b, c1) ->
    connection c1 = true /\ drv c1 = drv c /\ srv c1 = srv c /\ cfg c1 = cfg c.
Proof.
  intros c b c1. unfold connect, _init_thick_mode.
  destruct (drv_connect (drv c) (thick_mode_initialized c)) as [e|] eqn:E1.
  - destruct e; try discriminate.
    destruct (_ || _); [|discriminate].
    destruct (thick_mode_initialized c).
    + destruct (drv_connect (drv c) true); [discriminate|].
      intro H; injection H as _ <-. repeat split; reflexivity.
    + destruct (drv_init_oracle_client (drv c) _); [discriminate|].
      simpl. destruct (drv_connect (drv c) true); [discriminate|].
      intro H; injection H as _ <-. repeat split; reflexivity.
  - intro H; injection H as _ <-. repeat split; reflexivity.
Qed.

Lemma connect_raise :
  forall c e c1, connect c = (Raise e, c1) ->
    connection c1 = connection c /\ srv c1 = srv c.
Proof.
  intros c e c1. unfold connect, _init_thick_mode.
  destruct (drv_connect (drv c) (thick_mode_initialized c)) as [e0|] eqn:E1.
  - destruct e0; try (intro H; injection H as _ <-; split; reflexivity).
    destruct (_ || _); [|intro H; injection H as _ <-; split; reflexivity].
    destruct (thick_mode_initialized c).
    + destruct (drv_connect (drv c) true); [|discriminate].
      intro H; injection H as _ <-. split; reflexivity.
    + destruct (drv_init_oracle_client (drv c) _).
      * intro H; injection H as _ <-. split; reflexivity.
      * simpl. destruct (drv_connect (drv c) true); [|discriminate].
        intro H; injection H as _ <-. split; reflexivity.
  - discriminate.
Qed.

(** C6 (as stated) fails: when the connection is made and the probe query
    then fails, [test_connection] returns [(false, message)] with the
    connection still open. *)
Lemma C6_counterexample :
  exists c',
    test_connection (client_of failing_probe_driver)
    = (Ok (false, "Erro: ORA-00942: table or view does not exist"), c')
    /\ connection c' = true.
Proof. eexists. split; reflexivity. Qed.

(** C6 (amended).  [test_connection] never raises.  A failure of
    [connect] gives [(false, "Erro: ...")] and leaves the client with the
    connection it had; a failure of the probe or of the version query
    gives [(false, "Erro: ...")] and leaves the new connection open; when
    every step succeeds it returns [(true, message)] naming the mode (thick
    when this client initialised thick mode, thin otherwise) and the server
    banner, and the client is disconnected. *)
Theorem C6_test_connection_outcomes :
  forall c : OracleClient,
    (exists b msg c', test_connection c = (Ok (b, msg), c'))
    /\ (forall e c1,
          connect c = (Raise e, c1) ->
          test_connection c = (Ok (false, "Erro: " ++ exn_str e), c1)
          /\ connection c1 = connection c)
    /\ (forall b c1,
          connect c = (Ok b, c1) ->
          connection c1 = true
          /\ match drv_fetchone (drv c1) "SELECT 1 FROM DUAL",
                   drv_fetchone (drv c1) "SELECT banner FROM v$version WHERE ROWNUM = 1"
             with
             | Raise e, _ | Ok _, Raise e =>
                 test_connection c = (Ok (false, "Erro: " ++ exn_str e), c1)
             | Ok _, Ok None =>
                 test_connection c
                 = (Ok (false, "Erro: 'NoneType' object is not subscriptable"), c1)
             | Ok _, Ok (Some []) =>
                 test_connection c = (Ok (false, "Erro: tuple index out of range"), c1)
             | Ok _, Ok (Some (version :: _)) =>
                 exists c2,
                   test_connection c
                   = (Ok (true,
                          "Conexão bem-sucedida (modo "
                          ++ (if thick_mode_initialized c1 then "thick" else "thin")
                          ++ ")" ++ nl ++ version), c2)
                   /\ connection c2 = false
             end).
Proof.
  intro c.
  assert (Main :
    (forall e c1, connect c = (Raise e, c1) ->
       test_connection c = (Ok (false, "Erro: " ++ exn_str e), c1)
       /\ connection c1 = connection c)
    /\ (forall b c1, connect c = (Ok b, c1) ->
          connection c1 = true
          /\ match drv_fetchone (drv c1) "SELECT 1 FROM DUAL",
                   drv_fetchone (drv c1) "SELECT banner FROM v$version WHERE ROWNUM = 1"
             with
             | Raise e, _ | Ok _, Raise e =>
                 test_connection c = (Ok (false, "Erro: " ++ exn_str e), c1)
             | Ok _, Ok None =>
                 test_connection c
                 = (Ok (false, "Erro: 'NoneType' object is not subscriptable"), c1)
             | Ok _, Ok (Some []) =>
                 test_connection c = (Ok (false, "Erro: tuple index out of range"), c1)
             | Ok _, Ok (Some (version :: _)) =>
                 exists c2,
                   test_connection c
                   = (Ok (true,
                          "Conexão bem-sucedida (modo "
                          ++ (if thick_mode_initialized c1 then "thick" else "thin")
                          ++ ")" ++ nl ++ version), c2)
                   /\ connection c2 = false
             end)).
  { split.
    - intros e c1 H. split; [|apply (connect_raise _ _ _ H)].
      unfold test_connection, try_except, bind. rewrite H. reflexivity.
    - intros b c1 H. destruct (connect_ok _ _ _ H) as [Hc _].
      split; [exact Hc|].
      unfold test_connection, try_except, bind, get, lift, ret. rewrite H.
      destruct (drv_fetchone (drv c1) "SELECT 1 FROM DUAL") as [r1|e1];
        [|reflexivity].
      destruct (drv_fetchone (drv c1) "SELECT banner FROM v$version WHERE ROWNUM = 1")
        as [[[|v vs]|]|e2]; try reflexivity.
      unfold disconnect. rewrite Hc. eexists. split; reflexivity. }
  destruct Main as [M1 M2].
  split; [|split; assumption].
  destruct (connect c) as [[b|e] c1] eqn:Ec.
  - destruct (M2 b c1 eq_refl) as [_ Hm].
    destruct (drv_fetchone (drv c1) "SELECT 1 FROM DUAL") as [r1|e1].
    + destruct (drv_fetchone (drv c1) "SELECT banner FROM v$version WHERE ROWNUM = 1")
        as [[[|v vs]|]|e2].
      * do 3 eexists; exact Hm.
      * destruct Hm as [c2 [Hm _]]. do 3 eexists; exact Hm.
      * do 3 eexists; exact Hm.
      * do 3 eexists; exact Hm.
    + do 3 eexists; exact Hm.
  - destruct (M1 e c1 eq_refl) as [Hm _]. do 3 eexists; exact Hm.
Qed.

Lemma C6_witness :
  (exists c2,
     test_connection (client_of thick_driver)
     = (Ok (true, "Conexão bem-sucedida (modo thick)" ++ nl ++ "Oracle Database 11g"),
        c2)
     /\ connection c2 = false)
  /\ fst (test_connection (client_of unreachable_driver))
     = Ok (false, "Erro: DPY-6005: cannot connect").
Proof.
  destruct (C6_test_connection_outcomes (client_of thick_driver)) as [_ [_ H]].
  destruct (H _ _ eq_refl) as [_ Hs].
  destruct (C6_test_connection_outcomes (client_of unreachable_driver)) as [_ [H' _]].
  destruct (H' _ _ eq_refl) as [Hf _].
  split; [exact Hs | rewrite Hf; reflexivity].
Defined.

(** ** Frames *)







(** ** The session *)

Import Spec.















(** ** Cleaning of values *)






















(** ** What the loop reads *)










(** ** The staging tables *)





(* ===================================================================== *)
(** * Further properties: the store, the client form, the scheduler,
      the enterprise session *)
(* ===================================================================== *)

Import Store Props ClientDialog Demo.

(** ** Clients *)

Lemma fold_max_ge : forall ids sq z, In z ids -> (z <= fold_right Z.max sq ids)%Z.
Proof.
  induction ids as [|a r IH]; simpl; intros sq z H; [contradiction|].
  destruct H as [->|H]; [lia|]. specialize (IH sq z H). lia.
Qed.

Lemma next_id_fresh : forall ids sq, ~ In (next_id ids sq) ids.
Proof.
  intros ids sq H. apply (fold_max_ge ids sq) in H. unfold next_id in H. lia.
Qed.



Lemma cnpj_taken_true :
  forall cnpj rows, In cnpj (map cl_cnpj rows) -> cnpj_taken cnpj rows = true.
Proof.
  intros cnpj rows; induction rows as [|r rest IH]; simpl; intros H; [tauto|].
  destruct H as [E|E]; [rewrite E, String.eqb_refl; reflexivity|].
  rewrite (IH E). apply orb_true_r.
Qed.

Lemma NoDup_snoc : forall (A : Type) (l : list A) (a : A),
    NoDup l -> ~ In a l -> NoDup (l ++ [a]).
Proof.
  intros A l a Hl Ha. induction Hl as [|x l Hx Hl IH]; simpl.
  - constructor; [tauto|constructor].
  - constructor.
    + rewrite in_app_iff. simpl. intros [H|[H|[]]]; [tauto|].
      subst. apply Ha. left; reflexivity.
    + apply IH. intro H. apply Ha. right; exact H.
Qed.











Lemma find_app_absent :
  forall (A : Type) (p : A -> bool) (l : list A) (a : A),
    (forall x, In x l -> p x = false) -> find p (l ++ [a]) = if p a then Some a else None.
Proof.
  intros A p l a; induction l as [|x r IH]; simpl; intro H; [reflexivity|].
  rewrite (H x (or_introl eq_refl)). apply IH. intros y Hy. apply H. right; exact Hy.
Qed.


Lemma insert_by_nome_perm :
  forall r rows, Permutation (insert_by_nome r rows) (r :: rows).
Proof.
  intros r rows; induction rows as [|r' rest IH]; simpl; [reflexivity|].
  destruct (String.leb (cl_nome r) (cl_nome r')); [reflexivity|].
  rewrite IH. apply perm_swap.
Qed.

Lemma order_by_nome_perm : forall rows, Permutation (order_by_nome rows) rows.
Proof.
  induction rows as [|r rest IH]; simpl; [constructor|].
  rewrite insert_by_nome_perm. constructor. exact IH.
Qed.


Lemma insert_by_nome_sorted :
  forall r rows, Sorted nome_le rows -> Sorted nome_le (insert_by_nome r rows).
Proof.
  intros r rows H; induction H as [|r' rest Hs IH Hh]; simpl.
  - constructor; constructor.
  - destruct (String.leb (cl_nome r) (cl_nome r')) eqn:E.
    + constructor; [constructor; assumption|]. constructor. exact E.
    + constructor; [exact IH|].
      assert (E' : nome_le r' r).
      { destruct (String.leb_total (cl_nome r) (cl_nome r')) as [Q|Q];
          [congruence|exact Q]. }
      destruct rest as [|r'' rest']; simpl.
      * constructor. exact E'.
      * destruct (String.leb (cl_nome r) (cl_nome r'')); constructor;
          [exact E'|]. inversion Hh; assumption.
Qed.

Lemma order_by_nome_sorted : forall rows, Sorted nome_le (order_by_nome rows).
Proof.
  induction rows as [|r rest IH]; simpl; [constructor|].
  apply insert_by_nome_sorted. exact IH.
Qed.

(** X3.  [get_all_clientes] returns exactly the active clients,
    each once, in ascending order of name, and leaves the store as it
    is. *)
Theorem get_all_clientes_sorted :
  forall d : db,
    exists rows,
      get_all_clientes d = (Ok rows, d)
      /\ Sorted (fun a b => String.leb (cl_nome a) (cl_nome b) = true) rows
      /\ Permutation rows (filter cl_is_active (clientes d))
      /\ (forall r, In r rows <-> In r (clientes d) /\ cl_is_active r = true).
Proof.
  intro d. exists (order_by_nome (filter cl_is_active (clientes d))).
  split; [reflexivity|]. split; [apply order_by_nome_sorted|].
  split; [apply order_by_nome_perm|].
  intro r. rewrite <- filter_In. split; apply Permutation_in;
    [|symmetry]; apply order_by_nome_perm.
Qed.



Lemma find_deleted :
  forall id rows,
    find (fun r => (cl_id r =? id)%Z && cl_is_active r)
         (map (fun r => if (cl_id r =? id)%Z
                        then mk_cliente (cl_id r) (cl_nome r) (cl_cnpj r) false
                                        (cl_created_at r) (cl_updated_at r)
                        else r) rows) = None.
Proof.
  intros id rows; induction rows as [|r rest IH]; simpl; [reflexivity|].
  destruct (cl_id r =? id)%Z eqn:E; simpl; rewrite E; simpl; exact IH.
Qed.

(** X5.  Deletion is soft: after [delete_cliente] the client is
    no longer returned by [get_cliente] nor listed by [get_all_clientes],
    but its row keeps its CNPJ, so [create_cliente] with that CNPJ returns
    false and writes nothing. *)
Theorem deleted_cnpj_stays_taken :
  forall (d : db) (r : cliente),
    In r (clientes d) ->
    let d' := snd (delete_cliente (cl_id r) d) in
    fst (get_cliente (cl_id r) d') = Ok None
    /\ (forall rows, fst (get_all_clientes d') = Ok rows ->
                     forall r', In r' rows -> cl_id r' <> cl_id r)
    /\ In (cl_cnpj r) (map cl_cnpj (clientes d'))
    /\ forall now nome cnpj,
         clean_cnpj cnpj = cl_cnpj r ->
         create_cliente now nome cnpj d' = (Ok false, d').
Proof.
  intros d r Hin d'. subst d'. rewrite delete_cliente_spec. simpl.
  assert (Hc : In (cl_cnpj r)
                 (map cl_cnpj
                    (map (fun r0 => if (cl_id r0 =? cl_id r)%Z
                                    then mk_cliente (cl_id r0) (cl_nome r0) (cl_cnpj r0) false
                                           (cl_created_at r0) (cl_updated_at r0)
                                    else r0) (clientes d)))).
  { rewrite map_map. apply in_map_iff. exists r. split; [|exact Hin].
    rewrite Z.eqb_refl. reflexivity. }
  split; [|split; [|split]].
  - unfold get_cliente, bind, get, ret. simpl. rewrite find_deleted. reflexivity.
  - intros rows E r' Hr'. unfold get_all_clientes, bind, get, ret in E. simpl in E.
    injection E as <-.
    apply (Permutation_in _ (order_by_nome_perm _)) in Hr'.
    apply filter_In in Hr'. destruct Hr' as [Hm Ha].
    apply in_map_iff in Hm. destruct Hm as (x & Hx & _).
    destruct (cl_id x =? cl_id r)%Z eqn:E.
    + subst r'. discriminate.
    + subst r'. apply Z.eqb_neq. exact E.
  - exact Hc.
  - intros now nome cnpj Hcl. rewrite create_cliente_spec. simpl. rewrite Hcl.
    destruct (negb (String.length (cl_cnpj r) =? 14)%nat); [reflexivity|].
    rewrite (cnpj_taken_true _ _ Hc). reflexivity.
Qed.

Lemma deleted_cnpj_stays_taken_witness :
  fst (create_cliente 40 "Outra" "11.111.111/0001-11" (snd (delete_cliente 1 demo_db)))
  = Ok false.
Proof.
  destruct (deleted_cnpj_stays_taken demo_db
              (mk_cliente 1 "Alfa" "11111111000111" true 10 10)
              (or_introl eq_refl)) as (_ & _ & _ & H).
  exact (f_equal fst (H 40%Z "Outra" "11.111.111/0001-11" eq_refl)).
Defined.






(** ** The client form *)






Lemma repeat_str_length : forall c n, String.length (repeat_str c n) = n.
Proof. intros c n; induction n; simpl; congruence. Qed.









(** ** Accounts *)

Lemma authenticate_user_spec :
  forall B now username password d,
    authenticate_user B now username password d =
    match select_active_user username d with
    | None => (Ok None, d)
    | Some user =>
        match verify_password B password (u_password_hash user) with
        | Raise e => (Raise e, d)
        | Ok false => (Ok None, d)
        | Ok true =>
            (Ok (Some (dict_of_user user)),
             set_usuarios d
               (map (fun u => if (u_id u =? u_id user)%Z
                              then with_last_login now u else u) (usuarios d)))
        end
    end.
Proof.
  intros B now usr pw d. unfold authenticate_user, bind, get, lift, ret, modify.
  destruct (select_active_user usr d) as [user|]; [|reflexivity].
  destruct (verify_password B pw (u_password_hash user)) as [[|]|e]; reflexivity.
Qed.

Lemma create_user_spec :
  forall B salt now username password nome email d,
    create_user B salt now username password nome email d =
    match hash_password B salt password with
    | Raise (IntegrityError _) => (Ok false, d)
    | Raise e => (Raise e, d)
    | Ok password_hash =>
        if username_taken username d then (Ok false, d)
        else (Ok true,
              set_usuarios d
                (usuarios d
                 ++ [mk_usuario (next_id (map u_id (usuarios d)) 0) username password_hash
                                nome email true now None]))
    end.
Proof.
  intros B salt now usr pw nome email d.
  unfold create_user, except_integrity, insert_usuario, bind, get, lift, ret,
    modify, raise.
  destruct (hash_password B salt pw) as [h|e]; [|destruct e; reflexivity].
  destruct (username_taken usr d); reflexivity.
Qed.

Lemma hash_password_verifies :
  forall B salt password,
    bcrypt_verifies B salt password ->
    exists hashed, hash_password B salt password = Ok hashed
                   /\ verify_password B password hashed = Ok true.
Proof.
  intros B salt pw (h & H1 & H2 & H3). exists h.
  unfold hash_password, verify_password, decode. rewrite H1, H2. split; [reflexivity|exact H3].
Qed.

Lemma username_not_taken :
  forall username d,
    username_taken username d = false ->
    forall u, In u (usuarios d) -> String.eqb (u_username u) username = false.
Proof.
  intros usr d H u Hu. unfold username_taken in H.
  destruct (String.eqb (u_username u) usr) eqn:E; [|reflexivity].
  rewrite <- H. symmetry. apply existsb_exists. exists u. split; assumption.
Qed.

(** X9.  [authenticate_user] returns a user only for a row that
    is active, has the username given and whose hash verifies the
    password, and then only [last_login] of that account changes; in every
    other case (no active account, wrong password, bcrypt raising) the
    store is left as it was. *)
Theorem authenticate_user_sound :
  forall (B : bcrypt) (now : Z) (username password : string) (d : db),
    let out := authenticate_user B now username password d in
    match fst out with
    | Ok (Some user) =>
        exists row,
          In row (usuarios d)
          /\ user = dict_of_user row
          /\ u_username row = username
          /\ u_is_active row = true
          /\ verify_password B password (u_password_hash row) = Ok true
          /\ snd out
             = set_usuarios d
                 (map (fun u => if (u_id u =? u_id row)%Z
                                then with_last_login now u else u) (usuarios d))
    | _ => snd out = d
    end.
Proof.
  intros B now usr pw d out. subst out.
  rewrite authenticate_user_spec. unfold select_active_user.
  destruct (find _ (usuarios d)) as [user|] eqn:F; [|reflexivity].
  destruct (verify_password B pw (u_password_hash user)) as [[|]|e] eqn:V;
    try reflexivity.
  simpl. exists user. apply find_some in F. destruct F as [Hin Hp].
  apply andb_true_iff in Hp. destruct Hp as [Hu Ha]. apply String.eqb_eq in Hu.
  repeat split; assumption.
Qed.

(** X10.  With a hasher that verifies what it hashed:
    [create_user] with a username already in the table returns false and
    writes nothing; with a new username it returns true, and
    [authenticate_user] with the same password then returns that account,
    under an id no row had. *)
Theorem create_user_then_authenticate :
  forall (B : bcrypt) (salt : string) (now now' : Z) (username password : string)
         (nome_completo email : option string) (d : db),
    bcrypt_verifies B salt password ->
    let out := create_user B salt now username password nome_completo email d in
    (username_taken username d = true -> out = (Ok false, d))
    /\ (username_taken username d = false ->
        fst out = Ok true
        /\ exists user,
             fst (authenticate_user B now' username password (snd out)) = Ok (Some user)
             /\ ud_username user = username
             /\ ud_nome_completo user = nome_completo
             /\ ud_email user = email
             /\ ~ In (ud_id user) (map u_id (usuarios d))).
Proof.
  intros B salt now now' usr pw nome email d Hb out. subst out.
  destruct (hash_password_verifies _ _ _ Hb) as (h & Hh & Hv).
  rewrite create_user_spec, Hh. split; intro T; rewrite T; [reflexivity|].
  split; [reflexivity|]. simpl. rewrite authenticate_user_spec.
  unfold select_active_user. simpl. rewrite find_app_absent.
  - simpl. rewrite String.eqb_refl. simpl. rewrite Hv. simpl.
    eexists. split; [reflexivity|]. simpl. repeat split. apply next_id_fresh.
  - intros u Hu. rewrite (username_not_taken _ _ T u Hu). reflexivity.
Qed.

Lemma create_user_then_authenticate_witness :
  fst (create_user demo_bcrypt "salt1" 50 "maria" "segredo" (Some "Maria") None demo_db)
  = Ok true
  /\ exists user,
       fst (authenticate_user demo_bcrypt 51 "maria" "segredo"
              (snd (create_user demo_bcrypt "salt1" 50 "maria" "segredo" (Some "Maria")
                                None demo_db)))
       = Ok (Some user)
       /\ ud_username user = "maria".
Proof.
  assert (Hb : bcrypt_verifies demo_bcrypt "salt1" "segredo").
  { exists "salt1$segredo". split; [reflexivity|]. split; reflexivity. }
  destruct (create_user_then_authenticate demo_bcrypt "salt1" 50 51 "maria" "segredo"
              (Some "Maria") None demo_db Hb) as [_ H].
  destruct (H eq_refl) as (H1 & user & H2 & H3 & _).
  split; [exact H1|]. exists user. split; [exact H2|exact H3].
Defined.

Lemma find_map_password :
  forall (p : usuario -> bool) (f : usuario -> usuario) (q : usuario -> bool) rows user,
    (forall u, p (f u) = p u) ->
    find p rows = Some user -> q user = true ->
    find p (map (fun u => if q u then f u else u) rows) = Some (f user).
Proof.
  intros p f q rows user Hp; induction rows as [|u rest IH]; simpl; [discriminate|].
  intros F Q. destruct (p u) eqn:E.
  - injection F as ->. rewrite Q, Hp, E. reflexivity.
  - assert (E' : p (if q u then f u else u) = false).
    { destruct (q u); [rewrite Hp|]; exact E. }
    rewrite E'. apply IH; assumption.
Qed.

(** X11.  After [change_password] has returned true,
    [authenticate_user] with the new password returns the same account,
    and with the old password it returns nothing as soon as bcrypt rejects
    the old password against the new hash. *)
Theorem change_password_then_authenticate :
  forall (B : bcrypt) (salt : string) (now : Z)
         (username old_password new_password : string) (d : db),
    bcrypt_verifies B salt new_password ->
    fst (change_password B salt username old_password new_password d)
    = Ok (true, "Senha alterada com sucesso!") ->
    let d' := snd (change_password B salt username old_password new_password d) in
    (exists user,
       fst (authenticate_user B now username new_password d') = Ok (Some user)
       /\ ud_username user = username
       /\ forall before,
            fst (authenticate_user B now username old_password d) = Ok (Some before) ->
            ud_id user = ud_id before)
    /\ (forall new_hash,
          hash_password B salt new_password = Ok new_hash ->
          verify_password B old_password new_hash = Ok false ->
          authenticate_user B now username old_password d' = (Ok None, d')).
Proof.
  intros B salt now usr old new d Hb H d'. subst d'. revert H.
  destruct (hash_password_verifies _ _ _ Hb) as (h & Hh & Hv).
  rewrite change_password_spec.
  destruct (find _ (usuarios d)) as [user|] eqn:F; [|discriminate].
  destruct (verify_password B old (u_password_hash user)) as [[|]|e] eqn:V;
    try discriminate.
  rewrite Hh. intros _. simpl. rewrite authenticate_user_spec.
  unfold select_active_user. simpl.
  rewrite (find_map_password
             (fun u => String.eqb (u_username u) usr && u_is_active u)
             (with_password_hash h) (fun u => (u_id u =? u_id user)%Z)
             _ user (fun u => eq_refl) F (Z.eqb_refl _)).
  simpl. pose proof F as F0.
  apply find_some in F. destruct F as [_ Hp].
  apply andb_true_iff in Hp. destruct Hp as [Hu _]. apply String.eqb_eq in Hu.
  split.
  - rewrite Hv. simpl. eexists. split; [reflexivity|].
    split; [exact Hu|]. intros before. rewrite authenticate_user_spec.
    unfold select_active_user.
    rewrite F0, V. simpl. intro Q. injection Q as <-. reflexivity.
  - intros h' Q Hold. injection Q as <-. rewrite authenticate_user_spec.
    unfold select_active_user. simpl.
    rewrite (find_map_password
               (fun u => String.eqb (u_username u) usr && u_is_active u)
               (with_password_hash h) (fun u => (u_id u =? u_id user)%Z)
               _ user (fun u => eq_refl) F0 (Z.eqb_refl _)).
    simpl. rewrite Hold. reflexivity.
Qed.

Lemma change_password_then_authenticate_witness :
  exists user,
    fst (authenticate_user demo_bcrypt 60 "admin" "nova"
           (snd (change_password demo_bcrypt "salt1" "admin" "admin123" "nova" demo_db)))
    = Ok (Some user)
    /\ ud_username user = "admin".
Proof.
  assert (Hb : bcrypt_verifies demo_bcrypt "salt1" "nova").
  { exists "salt1$nova". split; [reflexivity|]. split; reflexivity. }
  destruct (change_password_then_authenticate demo_bcrypt "salt1" 60 "admin" "admin123"
              "nova" demo_db Hb eq_refl) as [(user & H1 & H2 & _) _].
  exists user. split; [exact H1|exact H2].
Defined.

(** X12.  [_create_default_user] does nothing on a table that
    has a user; on an empty table it creates the active account admin,
    which then authenticates with admin123, and running it again changes
    nothing. *)
Theorem default_user_bootstrap :
  forall (B : bcrypt) (salt : string) (now : Z) (d : db),
    let out := _create_default_user B salt now d in
    (usuarios d <> [] -> out = (Ok tt, d))
    /\ (usuarios d = [] -> bcrypt_verifies B salt "admin123" ->
        fst out = Ok tt
        /\ (forall now', exists user,
              fst (authenticate_user B now' "admin" "admin123" (snd out)) = Ok (Some user)
              /\ ud_username user = "admin" /\ ud_is_active user = true)
        /\ (forall salt' now',
              _create_default_user B salt' now' (snd out) = (Ok tt, snd out))).
Proof.
  intros B salt now d out. subst out. unfold _create_default_user, bind, get, ret.
  split.
  - intro H. destruct (usuarios d); [tauto|reflexivity].
  - intros E Hb. destruct (hash_password_verifies _ _ _ Hb) as (h & Hh & Hv).
    rewrite E. simpl. unfold lift, insert_usuario, bind, get, modify, raise.
    rewrite Hh. unfold username_taken. rewrite E. simpl.
    split; [reflexivity|].
    split; [|intros salt' now'; simpl; rewrite length_app, Nat.add_comm; reflexivity].
    intro now'. rewrite authenticate_user_spec. unfold select_active_user. simpl.
    rewrite E. simpl. rewrite Hv. simpl. eexists. split; [reflexivity|]. split; reflexivity.
Qed.

(** ** The cipher and the enterprise connections *)

Lemma encrypt_round_trip :
  forall F entropy p,
    utf8_valid p = true ->
    p = "" \/ fernet_round_trip F entropy p ->
    exists token, encrypt F entropy p = Ok token /\ decrypt F token = Ok p.
Proof.
  intros F entropy p Hv H. destruct (String.eqb p "") eqn:E.
  - apply String.eqb_eq in E. subst p. exists "". split; reflexivity.
  - destruct H as [->|(H1 & H2 & H3)]; [discriminate|].
    exists (fernet_encrypt F entropy p).
    assert (Q : encrypt F entropy p = Ok (fernet_encrypt F entropy p)).
    { unfold encrypt, decode. rewrite E, H2. reflexivity. }
    split; [exact Q|]. exact (decrypt_encrypt F entropy p _ H1 Hv Q H3).
Qed.

(** X13.  With a cipher that gives back the text of its token,
    and tokens that are texts and not empty, [decrypt] undoes [encrypt]
    for every text, the empty one included. *)
Theorem encrypt_then_decrypt :
  forall (F : fernet) (entropy plaintext : string),
    utf8_valid plaintext = true ->
    plaintext = "" \/ fernet_round_trip F entropy plaintext ->
    exists token,
      encrypt F entropy plaintext = Ok token /\ decrypt F token = Ok plaintext.
Proof. exact encrypt_round_trip. Qed.



Lemma encrypt_then_decrypt_witness :
  exists token,
    encrypt demo_fernet "iv" "secret" = Ok token /\ decrypt demo_fernet token = Ok "secret".
Proof.
  apply (encrypt_then_decrypt demo_fernet "iv" "secret"); [reflexivity|].
  right. split; [reflexivity|]. split; [reflexivity|discriminate].
Defined.





(** ** Schedules *)

Lemma schedule_type_round_trip :
  forall ty,
    schedule_type_of (frequencia_of ty)
    = if mem ty ["daily"; "weekly"; "monthly"] then ty else "daily".
Proof.
  intro ty. unfold frequencia_of, frequencia_map, dict_get, mem. cbn [find fst snd existsb].
  destruct (String.eqb "daily" ty) eqn:E1.
  - apply String.eqb_eq in E1. subst ty. reflexivity.
  - destruct (String.eqb "weekly" ty) eqn:E2.
    + apply String.eqb_eq in E2. subst ty. reflexivity.
    + destruct (String.eqb "monthly" ty) eqn:E3.
      * apply String.eqb_eq in E3. subst ty. reflexivity.
      * rewrite (String.eqb_sym ty "daily"), (String.eqb_sym ty "weekly"),
          (String.eqb_sym ty "monthly"), E1, E2, E3. reflexivity.
Qed.

Lemma schedule_type_of_in :
  forall f, In (schedule_type_of f) ["daily"; "weekly"; "monthly"].
Proof.
  intro f. unfold schedule_type_of, schedule_type_map, dict_get. cbn [find fst snd].
  destruct (String.eqb "DIARIA" f); [simpl; tauto|].
  destruct (String.eqb "SEMANAL" f); [simpl; tauto|].
  destruct (String.eqb "MENSAL" f); simpl; tauto.
Qed.

Lemma frequencia_of_checked :
  forall ty, mem (frequencia_of ty) ["DIARIA"; "SEMANAL"; "MENSAL"] = true.
Proof.
  intro ty. unfold frequencia_of, frequencia_map, dict_get. cbn [find fst snd].
  destruct (String.eqb "daily" ty); [reflexivity|].
  destruct (String.eqb "weekly" ty); [reflexivity|].
  destruct (String.eqb "monthly" ty); reflexivity.
Qed.

Lemma create_schedule_spec :
  forall now op ty time day active d,
    create_schedule now op ty time day active d =
    if mem op ["ENVIAR"; "BUSCAR"] then
      let id := next_id (map ag_id (agendamentos d)) (seq_agendamentos d) in
      (Ok id,
       set_agendamentos d
         (agendamentos d
          ++ [mk_agendamento id op (frequencia_of ty) (dias_semana_of day) time active
                             None None now]) id)
    else (Raise (IntegrityError "CHECK constraint failed"), d).
Proof.
  intros. unfold create_schedule, check_agendamento, bind, get, modify, ret, raise.
  rewrite frequencia_of_checked, andb_true_r.
  destruct (mem op ["ENVIAR"; "BUSCAR"]); reflexivity.
Qed.

Lemma schedule_day_round_trip :
  forall loads day,
    (forall z, day = Some z -> loads ("[" ++ str_of_Z z ++ "]") = Ok (JArray [JInt z])) ->
    schedule_day_of loads (dias_semana_of day) = option_map JInt day.
Proof.
  intros loads [z|] H; [|reflexivity].
  unfold dias_semana_of, schedule_day_of.
  change ("[" ++ str_of_Z z ++ "]") with (String "[" (str_of_Z z ++ "]")).
  cbv iota. change (String "[" (str_of_Z z ++ "]")) with ("[" ++ str_of_Z z ++ "]").
  rewrite (H z eq_refl). reflexivity.
Qed.

Lemma create_then_get_schedule_eq :
  forall (loads : string -> result jvalue) (now : Z)
         (operation_type schedule_type schedule_time : string)
         (schedule_day : option Z) (is_active : bool) (d : db),
    (forall z, schedule_day = Some z ->
               loads ("[" ++ str_of_Z z ++ "]") = Ok (JArray [JInt z])) ->
    let out := create_schedule now operation_type schedule_type schedule_time
                               schedule_day is_active d in
    (mem operation_type ["ENVIAR"; "BUSCAR"] = false ->
     out = (Raise (IntegrityError "CHECK constraint failed"), d))
    /\ (mem operation_type ["ENVIAR"; "BUSCAR"] = true ->
        exists id,
          fst out = Ok id
          /\ ~ In id (map ag_id (agendamentos d))
          /\ get_schedule loads id (snd out)
             = (Ok (Some (mk_schedule id operation_type
                            (if mem schedule_type ["daily"; "weekly"; "monthly"]
                             then schedule_type else "daily")
                            schedule_time (option_map JInt schedule_day)
                            is_active None)),
                snd out)).
Proof.
  intros loads now op ty time day active d Hl out. subst out.
  rewrite create_schedule_spec. split; intro Hm; rewrite Hm; [reflexivity|].
  eexists. split; [reflexivity|]. split; [apply next_id_fresh|].
  cbv zeta. cbn [snd]. unfold get_schedule, bind, get, ret. cbn [agendamentos set_agendamentos].
  rewrite find_app_absent.
  - cbn [ag_id]. rewrite Z.eqb_refl. unfold schedule_of_row. cbn.
    rewrite schedule_type_round_trip. 
    change (match day with Some d0 => Some ("[" ++ str_of_Z d0 ++ "]") | None => None end)
      with (dias_semana_of day).
    rewrite (schedule_day_round_trip loads day Hl). reflexivity.
  - intros x Hx. apply Z.eqb_neq. intro E.
    apply (next_id_fresh (map ag_id (agendamentos d)) (seq_agendamentos d)).
    rewrite <- E. apply in_map. exact Hx.
Qed.

(** X15.  [create_schedule] refuses an operation other than
    ENVIAR and BUSCAR with the CHECK error and writes nothing; otherwise
    [get_schedule] of the new id returns the operation, time, day and
    active flag given, no last run, and the schedule type given when it is
    daily, weekly or monthly and daily for any other. *)
Theorem create_then_get_schedule :
  forall (loads : string -> result jvalue) (now : Z)
         (operation_type schedule_type schedule_time : string)
         (schedule_day : option Z) (is_active : bool) (d : db),
    (forall z, schedule_day = Some z ->
               loads ("[" ++ str_of_Z z ++ "]") = Ok (JArray [JInt z])) ->
    let out := create_schedule now operation_type schedule_type schedule_time
                               schedule_day is_active d in
    (mem operation_type ["ENVIAR"; "BUSCAR"] = false ->
     out = (Raise (IntegrityError "CHECK constraint failed"), d))
    /\ (mem operation_type ["ENVIAR"; "BUSCAR"] = true ->
        exists id,
          fst out = Ok id
          /\ ~ In id (map ag_id (agendamentos d))
          /\ get_schedule loads id (snd out)
             = (Ok (Some (mk_schedule id operation_type
                            (if mem schedule_type ["daily"; "weekly"; "monthly"]
                             then schedule_type else "daily")
                            schedule_time (option_map JInt schedule_day)
                            is_active None)),
                snd out)).
Proof. exact create_then_get_schedule_eq. Qed.

Lemma insert_by_id_perm : forall a rows, Permutation (insert_by_id a rows) (a :: rows).
Proof.
  intros a rows; induction rows as [|a' rest IH]; simpl; [reflexivity|].
  destruct (ag_id a <=? ag_id a')%Z; [reflexivity|].
  rewrite IH. apply perm_swap.
Qed.

Lemma create_then_get_schedule_witness :
  exists id,
    fst (get_schedule demo_loads id
           (snd (create_schedule 80 "BUSCAR" "hourly" "06:15" (Some 2%Z) true demo_db)))
    = Ok (Some (mk_schedule id "BUSCAR" "daily" "06:15" (Some (JInt 2)) true None)).
Proof.
  destruct (create_then_get_schedule demo_loads 80 "BUSCAR" "hourly" "06:15" (Some 2%Z)
              true demo_db) as [_ H].
  - intros z E. injection E as <-. reflexivity.
  - destruct (H eq_refl) as (id & _ & _ & H2). exists id. exact (f_equal fst H2).
Defined.

Lemma order_by_id_perm : forall rows, Permutation (order_by_id rows) rows.
Proof.
  induction rows as [|a rest IH]; simpl; [constructor|].
  rewrite insert_by_id_perm. constructor. exact IH.
Qed.


Lemma insert_by_id_sorted :
  forall a rows, Sorted id_le rows -> Sorted id_le (insert_by_id a rows).
Proof.
  intros a rows H; induction H as [|a' rest Hs IH Hh]; simpl.
  - constructor; constructor.
  - destruct (ag_id a <=? ag_id a')%Z eqn:E.
    + apply Z.leb_le in E. constructor; [constructor; assumption|]. constructor. exact E.
    + apply Z.leb_gt in E. constructor; [exact IH|].
      assert (E' : id_le a' a) by (unfold id_le; lia).
      destruct rest as [|a'' rest']; simpl.
      * constructor. exact E'.
      * destruct (ag_id a <=? ag_id a'')%Z; constructor; [exact E'|].
        inversion Hh; assumption.
Qed.

Lemma order_by_id_sorted : forall rows, Sorted id_le (order_by_id rows).
Proof.
  induction rows as [|a rest IH]; simpl; [constructor|].
  apply insert_by_id_sorted. exact IH.
Qed.

Lemma Sorted_map :
  forall (A B : Type) (R : A -> A -> Prop) (R' : B -> B -> Prop) (f : A -> B) l,
    (forall a b, R a b -> R' (f a) (f b)) ->
    Sorted R l -> Sorted R' (map f l).
Proof.
  intros A B R R' f l Hf H; induction H as [|a l Hs IH Hh]; simpl; constructor;
    [exact IH|].
  destruct Hh; simpl; constructor. apply Hf. assumption.
Qed.

(** X16.  [get_all_schedules] returns one schedule per row,
    in ascending order of id, each with a schedule type among daily,
    weekly and monthly, and leaves the store as it is. *)
Theorem get_all_schedules_shape :
  forall (loads : string -> result jvalue) (d : db),
    exists schedules,
      get_all_schedules loads d = (Ok schedules, d)
      /\ Sorted Z.le (map sc_id schedules)
      /\ Permutation (map sc_id schedules) (map ag_id (agendamentos d))
      /\ Forall (fun s => In (sc_schedule_type s) ["daily"; "weekly"; "monthly"])
                schedules.
Proof.
  intros loads d. eexists. split; [reflexivity|]. split; [|split].
  - rewrite map_map. simpl.
    apply (Sorted_map _ _ id_le); [intros a b H; exact H|apply order_by_id_sorted].
  - rewrite map_map. simpl. apply Permutation_map. apply order_by_id_perm.
  - apply Forall_map. apply Forall_forall. intros a _. simpl. apply schedule_type_of_in.
Qed.




(** ** The execution log *)









(** ** The scheduler: triggers *)

Lemma parses_all_times :
  forallb (fun h => forallb (parses_time h) (seq 0 60)) (seq 0 24) = true.
Proof. vm_compute. reflexivity. Qed.

Lemma hh_mm_parses :
  forall h m, h < 24 -> m < 60 ->
    exists hour minute,
      Scheduler.split ":" (hh_mm h m) = [hour; minute]
      /\ Scheduler.int_of_str hour = Some (Z.of_nat h)
      /\ Scheduler.int_of_str minute = Some (Z.of_nat m).
Proof.
  intros h m Hh Hm. pose proof parses_all_times as H.
  rewrite forallb_forall in H. specialize (H h). rewrite in_seq in H.
  specialize (H (conj (Nat.le_0_l h) Hh)). rewrite forallb_forall in H.
  specialize (H m). rewrite in_seq in H. specialize (H (conj (Nat.le_0_l m) Hm)).
  unfold parses_time in H.
  destruct (Scheduler.split ":" (hh_mm h m)) as [|hour [|minute [|x r]]]; try discriminate.
  exists hour, minute. split; [reflexivity|].
  destruct (Scheduler.int_of_str hour) as [a|]; [|discriminate].
  destruct (Scheduler.int_of_str minute) as [b|]; [|discriminate].
  apply andb_true_iff in H. destruct H as [Ha Hb].
  apply Z.eqb_eq in Ha. apply Z.eqb_eq in Hb. subst. split; reflexivity.
Qed.

Lemma create_trigger_at_time_eq :
  forall (A : Scheduler.apscheduler) (schedule : Store.schedule) (h m : nat)
         (s : Scheduler.Scheduler),
    h < 24 -> m < 60 ->
    sc_schedule_time schedule = hh_mm h m ->
    let out := Scheduler._create_trigger A schedule s in
    let ty := sc_schedule_type schedule in
    let day := sc_schedule_day schedule in
    let fields :=
      Scheduler.mk_cron (if String.eqb ty "monthly" then day else None)
                        (if String.eqb ty "weekly" then day else None)
                        (Z.of_nat h) (Z.of_nat m) in
    (In ty ["daily"; "weekly"; "monthly"] ->
     match Scheduler.CronTrigger A fields with
     | None => out = (Ok (Some fields), s)
     | Some e => fst out = Ok None
                 /\ Scheduler.log (snd out) = (Scheduler.log s ++ [Scheduler.TriggerError e])%list
     end)
    /\ (~ In ty ["daily"; "weekly"; "monthly"] ->
        fst out = Ok None
        /\ Scheduler.log (snd out) = (Scheduler.log s ++ [Scheduler.InvalidType ty])%list).
Proof.
  intros A sch h m s Hh Hm Ht out ty day fields. subst out ty day fields.
  destruct (hh_mm_parses h m Hh Hm) as (hour & minute & Hs & H1 & H2).
  unfold Scheduler._create_trigger, Scheduler.int, try_except, bind, lift.
  rewrite Ht, Hs. cbv iota beta. rewrite H1, H2. cbv iota beta.
  split.
  - intros [E|[E|[E|[]]]]; rewrite <- E; cbn [String.eqb Ascii.eqb Bool.eqb andb];
      (destruct (Scheduler.CronTrigger A _) as [e|];
       [split; reflexivity|reflexivity]).
  - intro Hn. simpl in Hn.
    destruct (String.eqb (sc_schedule_type sch) "daily") eqn:E1;
      [apply String.eqb_eq in E1; exfalso; apply Hn; left; congruence|].
    destruct (String.eqb (sc_schedule_type sch) "weekly") eqn:E2;
      [apply String.eqb_eq in E2; exfalso; apply Hn; right; left; congruence|].
    destruct (String.eqb (sc_schedule_type sch) "monthly") eqn:E3;
      [apply String.eqb_eq in E3; exfalso; apply Hn; right; right; left; congruence|].
    split; reflexivity.
Qed.

(** X20.  For a schedule whose time is written HH:MM,
    [_create_trigger] hands [CronTrigger] that hour and that minute, with
    the day as day of the week for weekly, as day of the month for
    monthly, and no day for daily; it returns the trigger when the library
    accepts it and nothing (logging the error) when it raises, and for any
    other type it returns nothing and logs the invalid type. *)
Theorem create_trigger_at_time :
  forall (A : Scheduler.apscheduler) (schedule : Store.schedule) (h m : nat)
         (s : Scheduler.Scheduler),
    h < 24 -> m < 60 ->
    sc_schedule_time schedule = hh_mm h m ->
    let out := Scheduler._create_trigger A schedule s in
    let ty := sc_schedule_type schedule in
    let day := sc_schedule_day schedule in
    let fields :=
      Scheduler.mk_cron (if String.eqb ty "monthly" then day else None)
                        (if String.eqb ty "weekly" then day else None)
                        (Z.of_nat h) (Z.of_nat m) in
    (In ty ["daily"; "weekly"; "monthly"] ->
     match Scheduler.CronTrigger A fields with
     | None => out = (Ok (Some fields), s)
     | Some e => fst out = Ok None
                 /\ Scheduler.log (snd out) = (Scheduler.log s ++ [Scheduler.TriggerError e])%list
     end)
    /\ (~ In ty ["daily"; "weekly"; "monthly"] ->
        fst out = Ok None
        /\ Scheduler.log (snd out) = (Scheduler.log s ++ [Scheduler.InvalidType ty])%list).
Proof. exact create_trigger_at_time_eq. Qed.

(** ** The scheduler: the registry of jobs *)

Lemma str_of_Z_inj : forall a b, str_of_Z a = str_of_Z b -> a = b.
Proof.
  intros a b H. unfold str_of_Z in H.
  assert (P : forall z, NilZero.int_of_string (NilZero.string_of_int (Z.to_int z))
                        = Some (Z.to_int z)).
  { intro z. apply NilZero.isi; destruct z; simpl; try discriminate;
      intro Q; injection Q as Q; exact (DecimalPos.Unsigned.to_uint_nonnil _ Q). }
  pose proof (P a) as Pa. rewrite H, P in Pa. injection Pa as Pa.
  symmetry. apply DecimalZ.to_int_inj. exact Pa.
Qed.

Lemma create_trigger_at_time_witness :
  Scheduler._create_trigger demo_apscheduler
    (mk_schedule 1 "ENVIAR" "weekly" "09:30" (Some (JInt 2)) true None) idle
  = (Ok (Some (Scheduler.mk_cron None (Some (JInt 2)) 9 30)), idle).
Proof.
  destruct (create_trigger_at_time demo_apscheduler
              (mk_schedule 1 "ENVIAR" "weekly" "09:30" (Some (JInt 2)) true None)
              9 30 idle) as [H _].
  - lia.
  - lia.
  - reflexivity.
  - apply H. right. left. reflexivity.
Defined.

Lemma job_id_of_inj :
  forall a b, Scheduler.job_id_of a = Scheduler.job_id_of b -> a = b.
Proof.
  intros a b H. unfold Scheduler.job_id_of in H. simpl in H.
  injection H as H. apply str_of_Z_inj. exact H.
Qed.

Lemma filter_all :
  forall (A : Type) (p : A -> bool) (l : list A),
    (forall x, In x l -> p x = true) -> filter p l = l.
Proof.
  intros A p l; induction l as [|x r IH]; simpl; intro H; [reflexivity|].
  rewrite (H x (or_introl eq_refl)). f_equal. apply IH. intros y Hy. apply H. right; exact Hy.
Qed.

Lemma remove_job_spec :
  forall id s,
    Scheduler.remove_job id s =
    (Ok tt,
     Scheduler.mk_scheduler
       (filter (fun kv => negb (fst kv =? id)%Z) (Scheduler.jobs s))
       (filter (fun j => negb (String.eqb (Scheduler.job_id j) (Scheduler.job_id_of id)))
               (Scheduler.scheduler s))
       (Scheduler.log s)).
Proof.
  intros id s. unfold Scheduler.remove_job, bind, get, modify, ret.
  destruct (mem (Scheduler.job_id_of id) (map Scheduler.job_id (Scheduler.scheduler s)))
    eqn:M; cbn [Scheduler.jobs Scheduler.scheduler Scheduler.log].
  - unfold Scheduler.in_jobs. cbn [Scheduler.jobs].
    destruct (existsb _ (Scheduler.jobs s)) eqn:E; cbn; [reflexivity|].
    rewrite (filter_all _ _ (Scheduler.jobs s)); [reflexivity|].
    intros x Hx. destruct (fst x =? id)%Z eqn:Q; [|reflexivity].
    exfalso. apply not_true_iff_false in E. apply E.
    apply existsb_exists. exists x. split; assumption.
  - assert (F : filter (fun j => negb (String.eqb (Scheduler.job_id j) (Scheduler.job_id_of id)))
                       (Scheduler.scheduler s) = Scheduler.scheduler s).
    { apply filter_all. intros j Hj.
      destruct (String.eqb (Scheduler.job_id j) (Scheduler.job_id_of id)) eqn:Q; [|reflexivity].
      exfalso. apply not_true_iff_false in M. apply M. unfold mem. apply existsb_exists.
      exists (Scheduler.job_id j). split; [apply in_map; exact Hj|].
      rewrite String.eqb_sym. exact Q. }
    rewrite F. unfold Scheduler.in_jobs.
    destruct (existsb _ (Scheduler.jobs s)) eqn:E; cbn; [reflexivity|].
    rewrite (filter_all _ _ (Scheduler.jobs s)); [destruct s; reflexivity|].
    intros x Hx. destruct (fst x =? id)%Z eqn:Q; [|reflexivity].
    exfalso. apply not_true_iff_false in E. apply E.
    apply existsb_exists. exists x. split; assumption.
Qed.

(** What [_create_trigger] leaves. *)
Lemma create_trigger_effect :
  forall A sch s,
    exists r l,
      Scheduler._create_trigger A sch s
      = (Ok r, Scheduler.mk_scheduler (Scheduler.jobs s) (Scheduler.scheduler s)
                                      (Scheduler.log s ++ l))
      /\ (forall ty, In (Scheduler.InvalidType ty) l ->
                     ty = sc_schedule_type sch
                     /\ ~ In ty ["daily"; "weekly"; "monthly"]).
Proof.
  intros A sch s.
  assert (Hnil : forall r, exists r0 l,
             ((Ok r, s) : result (option Scheduler.cron_fields) * Scheduler.Scheduler)
             = (Ok r0, Scheduler.mk_scheduler (Scheduler.jobs s) (Scheduler.scheduler s)
                                             (Scheduler.log s ++ l))
             /\ (forall ty, In (Scheduler.InvalidType ty) l ->
                            ty = sc_schedule_type sch
                            /\ ~ In ty ["daily"; "weekly"; "monthly"])).
  { intro r. exists r, []. rewrite app_nil_r. split; [destruct s; reflexivity|].
    intros ty []. }
  assert (Herr : forall e, exists r0 l,
             ((Ok None, Scheduler.mk_scheduler (Scheduler.jobs s) (Scheduler.scheduler s)
                          (Scheduler.log s ++ [Scheduler.TriggerError e]))
              : result (option Scheduler.cron_fields) * Scheduler.Scheduler)
             = (Ok r0, Scheduler.mk_scheduler (Scheduler.jobs s) (Scheduler.scheduler s)
                                             (Scheduler.log s ++ l))
             /\ (forall ty, In (Scheduler.InvalidType ty) l ->
                            ty = sc_schedule_type sch
                            /\ ~ In ty ["daily"; "weekly"; "monthly"])).
  { intro e. exists None, [Scheduler.TriggerError e]. split; [reflexivity|].
    intros ty [Q|[]]. discriminate. }
  unfold Scheduler._create_trigger, Scheduler.int, try_except, bind, lift,
    Scheduler.add_log, modify, ret, raise.
  destruct (Scheduler.split ":" (sc_schedule_time sch)) as [|hour [|minute [|x r]]];
    try apply Herr.
  destruct (Scheduler.int_of_str hour) as [h|]; [|apply Herr].
  destruct (Scheduler.int_of_str minute) as [m|]; [|apply Herr].
  destruct (String.eqb (sc_schedule_type sch) "daily") eqn:E1.
  { destruct (Scheduler.CronTrigger A _); [apply Herr|apply Hnil]. }
  destruct (String.eqb (sc_schedule_type sch) "weekly") eqn:E2.
  { destruct (Scheduler.CronTrigger A _); [apply Herr|apply Hnil]. }
  destruct (String.eqb (sc_schedule_type sch) "monthly") eqn:E3.
  { destruct (Scheduler.CronTrigger A _); [apply Herr|apply Hnil]. }
  exists None, [Scheduler.InvalidType (sc_schedule_type sch)]. split; [reflexivity|].
  intros ty [Q|[]]. injection Q as <-. split; [reflexivity|].
  apply String.eqb_neq in E1, E2, E3. simpl. intros [Q|[Q|[Q|[]]]]; congruence.
Qed.

Lemma Permutation_filter_same :
  forall (A : Type) (p : A -> bool) (l l' : list A),
    Permutation l l' -> Permutation (filter p l) (filter p l').
Proof.
  intros A p l l' H; induction H; simpl.
  - constructor.
  - destruct (p x); [constructor|]; assumption.
  - destruct (p x), (p y); try reflexivity. apply perm_swap.
  - etransitivity; eassumption.
Qed.

Lemma NoDup_map_filter :
  forall (A B : Type) (f : A -> B) (p : A -> bool) (l : list A),
    NoDup (map f l) -> NoDup (map f (filter p l)).
Proof.
  intros A B f p l; induction l as [|x r IH]; simpl; intro H; [constructor|].
  inversion H as [|? ? Hx Hr]; subst.
  destruct (p x); simpl; [|apply IH; exact Hr].
  constructor; [|apply IH; exact Hr].
  intro Q. apply Hx. apply in_map_iff in Q. destruct Q as (y & Hy & Hin).
  apply filter_In in Hin. rewrite <- Hy. apply in_map. tauto.
Qed.

Lemma map_snd_filter_jobs :
  forall id (jobs : list (Z * Scheduler.job)),
    Forall (fun kv => Scheduler.job_id (snd kv) = Scheduler.job_id_of (fst kv)) jobs ->
    map snd (filter (fun kv => negb (fst kv =? id)%Z) jobs)
    = filter (fun j => negb (String.eqb (Scheduler.job_id j) (Scheduler.job_id_of id)))
             (map snd jobs).
Proof.
  intros id jobs H; induction H as [|kv rest Hk H IH]; simpl; [reflexivity|].
  rewrite Hk.
  destruct (fst kv =? id)%Z eqn:E.
  - apply Z.eqb_eq in E. rewrite E, String.eqb_refl. simpl. exact IH.
  - assert (Q : String.eqb (Scheduler.job_id_of (fst kv)) (Scheduler.job_id_of id) = false).
    { apply String.eqb_neq. intro Q. apply job_id_of_inj in Q.
      apply Z.eqb_neq in E. tauto. }
    rewrite Q. simpl. f_equal. exact IH.
Qed.

Lemma remove_job_keeps_registry :
  forall id s, registry_ok s -> registry_ok (snd (Scheduler.remove_job id s)).
Proof.
  intros id s (Hn & Hf & Hp). rewrite remove_job_spec. unfold registry_ok. simpl.
  split; [apply NoDup_map_filter; exact Hn|]. split.
  - apply Forall_forall. intros kv Hkv. apply filter_In in Hkv.
    rewrite Forall_forall in Hf. apply Hf. tauto.
  - rewrite (map_snd_filter_jobs id _ Hf). apply Permutation_filter_same. exact Hp.
Qed.

Lemma remove_job_absent :
  forall id s,
    ~ In id (map fst (Scheduler.jobs (snd (Scheduler.remove_job id s)))).
Proof.
  intros id s. rewrite remove_job_spec. simpl. intro H.
  apply in_map_iff in H. destruct H as (kv & Hk & Hin).
  apply filter_In in Hin. destruct Hin as [_ Hin].
  rewrite Hk, Z.eqb_refl in Hin. discriminate.
Qed.

Lemma dict_set_absent :
  forall key value d,
    ~ In key (map fst d) -> Scheduler.dict_set key value d = (d ++ [(key, value)])%list.
Proof.
  intros key value d; induction d as [|[k v] rest IH]; simpl; intro H; [reflexivity|].
  destruct (k =? key)%Z eqn:E.
  - apply Z.eqb_eq in E. tauto.
  - f_equal. apply IH. tauto.
Qed.

Lemma in_jobs_iff :
  forall id s, Scheduler.in_jobs id s = true <-> In id (map fst (Scheduler.jobs s)).
Proof.
  intros id s. unfold Scheduler.in_jobs. rewrite existsb_exists. split.
  - intros (kv & Hin & E). apply Z.eqb_eq in E. rewrite <- E. apply in_map. exact Hin.
  - intro H. apply in_map_iff in H. destruct H as (kv & E & Hin).
    exists kv. split; [exact Hin|]. apply Z.eqb_eq. exact E.
Qed.

(** Registering a job under a key that is free. *)
Lemma register_keeps_registry :
  forall id name trigger args jobs sched l,
    registry_ok (Scheduler.mk_scheduler jobs sched l) ->
    ~ In id (map fst jobs) ->
    forall l',
    let job := Scheduler.mk_job (Scheduler.job_id_of id) name trigger args in
    registry_ok (Scheduler.mk_scheduler (Scheduler.dict_set id job jobs)
                                        (Scheduler.scheduler_add_job job sched) l').
Proof.
  intros id name trigger args jobs sched l (Hn & Hf & Hp) Hfree l' job.
  simpl in Hn, Hf, Hp. unfold registry_ok. simpl.
  rewrite (dict_set_absent _ _ _ Hfree). rewrite !map_app. simpl.
  assert (Hs : Scheduler.scheduler_add_job job sched = (sched ++ [job])%list).
  { unfold Scheduler.scheduler_add_job. f_equal. apply filter_all.
    intros j Hj. apply negb_true_iff. apply String.eqb_neq. intro Q.
    apply (Permutation_in _ (Permutation_sym Hp)) in Hj.
    apply in_map_iff in Hj. destruct Hj as (kv & Hk & Hin).
    rewrite Forall_forall in Hf. pose proof (Hf kv Hin) as Hid.
    rewrite Hk, Q in Hid. simpl in Hid. apply job_id_of_inj in Hid.
    apply Hfree. rewrite Hid. apply in_map. exact Hin. }
  rewrite Hs. split; [apply NoDup_snoc; assumption|]. split.
  - apply Forall_app. split; [exact Hf|]. constructor; [reflexivity|constructor].
  - apply Permutation_app_tail. exact Hp.
Qed.

Lemma log_keeps_registry :
  forall jobs sched l l',
    registry_ok (Scheduler.mk_scheduler jobs sched l) ->
    registry_ok (Scheduler.mk_scheduler jobs sched l').
Proof. intros jobs sched l l' H. exact H. Qed.

Lemma add_job_keeps_registry :
  forall A sch s, registry_ok s -> registry_ok (snd (Scheduler.add_job A sch s)).
Proof.
  intros A sch s H. unfold Scheduler.add_job.
  destruct (sc_is_active sch); cbn [negb].
  2:{ unfold Scheduler.add_log, modify. simpl. destruct s; exact H. }
  unfold bind at 1. unfold get at 1. unfold bind at 1.
  set (s1 := snd ((if Scheduler.in_jobs (sc_id sch) s
                   then Scheduler.remove_job (sc_id sch) else ret tt) s)).
  assert (E1 : (if Scheduler.in_jobs (sc_id sch) s
                then Scheduler.remove_job (sc_id sch) else ret tt) s = (Ok tt, s1)).
  { subst s1. destruct (Scheduler.in_jobs (sc_id sch) s); [|reflexivity].
    rewrite remove_job_spec. reflexivity. }
  rewrite E1.
  assert (H1 : registry_ok s1 /\ ~ In (sc_id sch) (map fst (Scheduler.jobs s1))).
  { subst s1. destruct (Scheduler.in_jobs (sc_id sch) s) eqn:I.
    - split; [apply remove_job_keeps_registry; exact H|apply remove_job_absent].
    - unfold ret. cbn [snd]. split; [exact H|]. intro Q. apply in_jobs_iff in Q. congruence. }
  destruct H1 as [H1 Hfree]. clearbody s1. clear E1.
  unfold bind. destruct (create_trigger_effect A sch s1) as (r & l & Et & _).
  rewrite Et. destruct r as [fields|].
  - unfold modify. simpl. destruct s1 as [jobs sched lg]. simpl in *.
    eapply register_keeps_registry; [exact H1|exact Hfree].
  - unfold Scheduler.add_log, modify. simpl. destruct s1; exact H1.
Qed.

(** X21.  [add_job], [remove_job], [update_job] and
    [load_schedules] keep [self.jobs] and the jobs of the scheduler in
    step: one entry per schedule id, each under the job id made of it, and
    the same jobs on both sides. *)
Theorem registry_invariant :
  forall (A : Scheduler.apscheduler) (schedule : Store.schedule) (schedule_id : Z)
         (schedules : list Store.schedule) (s : Scheduler.Scheduler),
    registry_ok s ->
    registry_ok (snd (Scheduler.add_job A schedule s))
    /\ registry_ok (snd (Scheduler.remove_job schedule_id s))
    /\ registry_ok (snd (Scheduler.update_job A schedule s))
    /\ registry_ok (snd (Scheduler.load_schedules A schedules s)).
Proof.
  intros A sch id schs s H. split; [apply add_job_keeps_registry; exact H|].
  split; [apply remove_job_keeps_registry; exact H|]. split.
  - unfold Scheduler.update_job, bind. rewrite remove_job_spec.
    apply add_job_keeps_registry.
    pose proof (remove_job_keeps_registry (sc_id sch) s H) as Q.
    rewrite remove_job_spec in Q. exact Q.
  - unfold Scheduler.load_schedules. revert s H.
    induction schs as [|x rest IH]; intros s H; simpl; [exact H|].
    unfold bind. pose proof (add_job_keeps_registry A x s H) as Q.
    destruct (Scheduler.add_job A x s) as [[[]|e] s'] eqn:E; simpl in Q.
    + apply IH. exact Q.
    + exact Q.
Qed.

Lemma idle_ok : registry_ok idle.
Proof.
  split; [constructor|]. split; constructor.
Defined.

Lemma registry_invariant_witness :
  registry_ok
    (snd (Scheduler.update_job demo_apscheduler
            (mk_schedule 1 "ENVIAR" "weekly" "09:30" (Some (JInt 2)) true None) idle)).
Proof.
  destruct (registry_invariant demo_apscheduler
              (mk_schedule 1 "ENVIAR" "weekly" "09:30" (Some (JInt 2)) true None)
              1 [] idle idle_ok) as (_ & _ & H & _).
  exact H.
Defined.

Lemma add_job_log :
  forall A sch s ty,
    In (Scheduler.InvalidType ty) (Scheduler.log (snd (Scheduler.add_job A sch s))) ->
    In (Scheduler.InvalidType ty) (Scheduler.log s)
    \/ (ty = sc_schedule_type sch /\ ~ In ty ["daily"; "weekly"; "monthly"]).
Proof.
  intros A sch s ty. unfold Scheduler.add_job.
  destruct (sc_is_active sch); cbn [negb].
  2:{ unfold Scheduler.add_log, modify. simpl. rewrite in_app_iff. simpl.
      intros [H|[H|[]]]; [left; exact H|discriminate]. }
  unfold bind at 1. unfold get at 1. unfold bind at 1.
  set (s1 := snd ((if Scheduler.in_jobs (sc_id sch) s
                   then Scheduler.remove_job (sc_id sch) else ret tt) s)).
  assert (E1 : (if Scheduler.in_jobs (sc_id sch) s
                then Scheduler.remove_job (sc_id sch) else ret tt) s = (Ok tt, s1)).
  { subst s1. destruct (Scheduler.in_jobs (sc_id sch) s); [|reflexivity].
    rewrite remove_job_spec. reflexivity. }
  rewrite E1.
  assert (L1 : Scheduler.log s1 = Scheduler.log s).
  { subst s1. destruct (Scheduler.in_jobs (sc_id sch) s); [|reflexivity].
    rewrite remove_job_spec. reflexivity. }
  clearbody s1. clear E1.
  unfold bind. destruct (create_trigger_effect A sch s1) as (r & l & Et & Hl).
  rewrite Et. destruct r as [fields|].
  - unfold modify. simpl. rewrite L1, in_app_iff. intros [H|H]; [left; exact H|].
    right. apply Hl. exact H.
  - unfold Scheduler.add_log, modify. simpl. rewrite L1, !in_app_iff. simpl.
    intros [[H|H]|[H|[]]]; [left; exact H|right; apply Hl; exact H|discriminate].
Qed.

(** X22.  A schedule read from the store never reaches
    the invalid-type branch of [_create_trigger]: [get_schedule] and
    [get_all_schedules] return only the types daily, weekly and monthly,
    so [add_job] and [load_schedules] on what they return log no invalid
    type. *)
Theorem stored_schedule_types_are_valid :
  forall (A : Scheduler.apscheduler) (loads : string -> result jvalue) (d : db),
    (forall id, match fst (get_schedule loads id d) with
                | Ok (Some schedule) =>
                    In (sc_schedule_type schedule) ["daily"; "weekly"; "monthly"]
                    /\ forall s ty,
                         In (Scheduler.InvalidType ty)
                            (Scheduler.log (snd (Scheduler.add_job A schedule s))) ->
                         In (Scheduler.InvalidType ty) (Scheduler.log s)
                | Ok None => True
                | Raise _ => False
                end)
    /\ (exists schedules,
          fst (get_all_schedules loads d) = Ok schedules
          /\ forall s ty,
               In (Scheduler.InvalidType ty)
                  (Scheduler.log (snd (Scheduler.load_schedules A schedules s))) ->
               In (Scheduler.InvalidType ty) (Scheduler.log s)).
Proof.
  intros A loads d. split.
  - intro id. unfold get_schedule, bind, get, ret.
    destruct (find _ (agendamentos d)) as [row|]; simpl; [|exact I].
    split; [apply schedule_type_of_in|]. intros s ty H.
    apply add_job_log in H. destruct H as [H|[-> H]]; [exact H|].
    exfalso. apply H. apply schedule_type_of_in.
  - eexists. split; [reflexivity|].
    assert (G : forall schs,
               Forall (fun x => In (sc_schedule_type x) ["daily"; "weekly"; "monthly"]) schs ->
               forall s ty,
                 In (Scheduler.InvalidType ty)
                    (Scheduler.log (snd (Scheduler.load_schedules A schs s))) ->
                 In (Scheduler.InvalidType ty) (Scheduler.log s)).
    { unfold Scheduler.load_schedules.
      induction schs as [|x rest IH]; intros Hf s ty; simpl; [tauto|].
      inversion Hf as [|? ? Hx Hr]; subst. unfold bind.
      pose proof (add_job_log A x s ty) as Q.
      destruct (Scheduler.add_job A x s) as [[[]|e] s'] eqn:E; simpl in Q.
      - intro H. apply (IH Hr) in H. destruct (Q H) as [K|[-> K]]; [exact K|tauto].
      - simpl. intro H. destruct (Q H) as [K|[-> K]]; [exact K|tauto]. }
    apply G. apply Forall_map. apply Forall_forall. intros a _. simpl.
    apply schedule_type_of_in.
Qed.

Lemma normalised_type_eqb :
  forall ty k,
    In k ["daily"; "weekly"; "monthly"] ->
    String.eqb (if mem ty ["daily"; "weekly"; "monthly"] then ty else "daily") k
    = if mem ty ["daily"; "weekly"; "monthly"] then String.eqb ty k
      else String.eqb "daily" k.
Proof. intros ty k _. destruct (mem ty _); reflexivity. Qed.

(** X23.  From the form to the scheduler: an active schedule
    created at HH:MM and read back with [get_schedule] is registered by
    [add_job] under the job id of its row, with the operation as argument
    and the trigger for that time, weekly or monthly with its day when the
    type says so and daily for every other type, known or not, provided
    the library accepts the trigger. *)
Theorem added_schedule_is_registered :
  forall (A : Scheduler.apscheduler) (loads : string -> result jvalue) (now : Z)
         (operation_type schedule_type : string) (h m : nat)
         (schedule_day : option Z) (d : db) (s : Scheduler.Scheduler),
    h < 24 -> m < 60 ->
    mem operation_type ["ENVIAR"; "BUSCAR"] = true ->
    (forall z, schedule_day = Some z ->
               loads ("[" ++ str_of_Z z ++ "]") = Ok (JArray [JInt z])) ->
    let day := option_map JInt schedule_day in
    let fields :=
      Scheduler.mk_cron (if String.eqb schedule_type "monthly" then day else None)
                        (if String.eqb schedule_type "weekly" then day else None)
                        (Z.of_nat h) (Z.of_nat m) in
    Scheduler.CronTrigger A fields = None ->
    let out := create_schedule now operation_type schedule_type (hh_mm h m)
                               schedule_day true d in
    exists id schedule,
      fst out = Ok id
      /\ fst (get_schedule loads id (snd out)) = Ok (Some schedule)
      /\ In (Scheduler.mk_job (Scheduler.job_id_of id) operation_type fields
                              [operation_type])
            (Scheduler.scheduler (snd (Scheduler.add_job A schedule s))).
Proof.
  intros A loads now op ty h m day d s Hh Hm Hop Hl day' fields Hc out.
  destruct (create_then_get_schedule_eq loads now op ty (hh_mm h m) day true d Hl)
    as [_ H]. destruct (H Hop) as (id & E1 & _ & E2). clear H.
  subst out. exists id. eexists. split; [exact E1|]. rewrite E2. split; [reflexivity|].
  set (sch := mk_schedule id op _ (hh_mm h m) (option_map JInt day) true None).
  unfold Scheduler.add_job. cbn [sc_is_active sch negb].
  unfold bind at 1. unfold get at 1. unfold bind at 1.
  set (s1 := snd ((if Scheduler.in_jobs (sc_id sch) s
                   then Scheduler.remove_job (sc_id sch) else ret tt) s)).
  assert (Es : (if Scheduler.in_jobs (sc_id sch) s
                then Scheduler.remove_job (sc_id sch) else ret tt) s = (Ok tt, s1)).
  { subst s1. destruct (Scheduler.in_jobs (sc_id sch) s); [|reflexivity].
    rewrite remove_job_spec. reflexivity. }
  rewrite Es. clearbody s1. clear Es. unfold bind.
  assert (Ef : Scheduler.mk_cron
                 (if String.eqb (sc_schedule_type sch) "monthly"
                  then sc_schedule_day sch else None)
                 (if String.eqb (sc_schedule_type sch) "weekly"
                  then sc_schedule_day sch else None) (Z.of_nat h) (Z.of_nat m) = fields).
  { subst fields day' sch. cbn [sc_schedule_type sc_schedule_day].
    unfold mem. cbn [existsb].
    rewrite (String.eqb_sym ty "daily"), (String.eqb_sym ty "weekly"),
      (String.eqb_sym ty "monthly").
    destruct (String.eqb "daily" ty) eqn:Q1.
    { apply String.eqb_eq in Q1. subst ty. reflexivity. }
    destruct (String.eqb "weekly" ty) eqn:Q2.
    { apply String.eqb_eq in Q2. subst ty. reflexivity. }
    destruct (String.eqb "monthly" ty) eqn:Q3.
    { apply String.eqb_eq in Q3. subst ty. reflexivity. }
    reflexivity. }
  destruct (create_trigger_at_time_eq A sch h m s1 Hh Hm eq_refl) as [Hin _].
  assert (Hty : In (sc_schedule_type sch) ["daily"; "weekly"; "monthly"]).
  { subst sch. cbn [sc_schedule_type].
    destruct (mem ty ["daily"; "weekly"; "monthly"]) eqn:M; [|left; reflexivity].
    unfold mem in M. apply existsb_exists in M. destruct M as (k & Hk & E).
    apply String.eqb_eq in E. subst k. exact Hk. }
  specialize (Hin Hty). cbv zeta in Hin. rewrite Ef, Hc in Hin. rewrite Hin.
  unfold modify. cbn [snd Scheduler.scheduler]. unfold Scheduler.scheduler_add_job.
  apply in_or_app. right. left. subst sch. cbn [sc_id sc_operation_type]. reflexivity.
Qed.

Lemma added_schedule_is_registered_witness :
  exists id schedule,
    fst (create_schedule 80 "BUSCAR" "hourly" (hh_mm 6 15) None true demo_db) = Ok id
    /\ fst (get_schedule demo_loads id
               (snd (create_schedule 80 "BUSCAR" "hourly" (hh_mm 6 15) None true demo_db)))
       = Ok (Some schedule)
    /\ In (Scheduler.mk_job (Scheduler.job_id_of id) "BUSCAR"
                            (Scheduler.mk_cron None None 6 15) ["BUSCAR"])
          (Scheduler.scheduler (snd (Scheduler.add_job demo_apscheduler schedule idle))).
Proof.
  apply (added_schedule_is_registered demo_apscheduler demo_loads 80 "BUSCAR" "hourly"
           6 15 None demo_db idle).
  - lia.
  - lia.
  - reflexivity.
  - intros z E. discriminate.
  - reflexivity.
Defined.

Lemma split_length :
  forall c s, List.length (Scheduler.split c s) = S (count_char c s).
Proof.
  intros c s; induction s as [|a r IH]; simpl; [reflexivity|].
  destruct (Ascii.eqb a c); simpl; [rewrite IH; reflexivity|].
  destruct (Scheduler.split c r); simpl in *; [discriminate|exact IH].
Qed.

(** X24.  A time that does not hold exactly one
    colon gives no trigger: [_create_trigger] returns nothing, logs the
    unpacking error and leaves the jobs as they are, whatever the type. *)
Theorem create_trigger_rejects_malformed_time :
  forall (A : Scheduler.apscheduler) (schedule : Store.schedule)
         (s : Scheduler.Scheduler),
    count_char ":" (sc_schedule_time schedule) <> 1 ->
    exists e,
      Scheduler._create_trigger A schedule s
      = (Ok None,
         Scheduler.mk_scheduler (Scheduler.jobs s) (Scheduler.scheduler s)
           (Scheduler.log s ++ [Scheduler.TriggerError (ValueError e)])%list).
Proof.
  intros A sch s H. pose proof (split_length ":" (sc_schedule_time sch)) as L.
  unfold Scheduler._create_trigger, Scheduler.int, try_except, bind, lift,
    Scheduler.add_log, modify, ret, raise.
  destruct (Scheduler.split ":" (sc_schedule_time sch)) as [|hour [|minute [|x r]]];
    simpl in L.
  - discriminate.
  - eexists. reflexivity.
  - exfalso. apply H. lia.
  - eexists. reflexivity.
Qed.

Lemma create_trigger_rejects_malformed_time_witness :
  exists e,
    Scheduler._create_trigger demo_apscheduler
      (mk_schedule 1 "ENVIAR" "daily" "0930" None true None) idle
    = (Ok None,
       Scheduler.mk_scheduler [] [] [Scheduler.TriggerError (ValueError e)]).
Proof.
  apply (create_trigger_rejects_malformed_time demo_apscheduler
           (mk_schedule 1 "ENVIAR" "daily" "0930" None true None) idle).
  discriminate.
Defined.

(** ** The enterprise session: what a write leaves *)









(** ** The enterprise session: connecting *)

Ltac fin :=
    cbn [fst snd connection srv thick_mode_initialized set_connection set_thick drv cfg];
    repeat match goal with |- _ /\ _ => split end;
    intros; try discriminate; try congruence; try reflexivity;
    try (match goal with H : Ok _ = Ok _ |- _ => injection H as <- end;
         split; reflexivity).

(** X26.  [connect] never returns false: it returns true
    with the connection set, or raises with the connection as it was, and
    it never touches the server's tables.  When the first attempt succeeds
    nothing else happens; thick mode, once initialised, stays; and it is
    initialised by [connect] only after the thin attempt raised a database
    error with code 3010 or DPY-3010 in its text and the Instant Client
    loaded. *)
Theorem connect_thick_only_on_dpy_3010 :
  forall c : OracleClient,
    let out := connect c in
    srv (snd out) = srv c
    /\ (forall b, fst out = Ok b -> b = true /\ connection (snd out) = true)
    /\ (forall e, fst out = Raise e -> connection (snd out) = connection c)
    /\ (drv_connect (drv c) (thick_mode_initialized c) = None ->
        out = (Ok true, set_connection c true))
    /\ (thick_mode_initialized c = true -> thick_mode_initialized (snd out) = true)
    /\ (thick_mode_initialized c = false ->
        thick_mode_initialized (snd out) = true ->
        exists error_code error_message,
          drv_connect (drv c) false = Some (DatabaseError error_code error_message)
          /\ (error_code = Some 3010%Z \/ contains "DPY-3010" error_message = true)
          /\ drv_init_oracle_client
               (drv c) (truthy_path (instant_client_path (cfg c))) = None).
Proof.
  intro c. unfold connect, _init_thick_mode.
  assert (Hcode : forall (k : option Z) m,
             match k with Some z => (z =? 3010)%Z | None => false end
             || contains "DPY-3010" m = true ->
             k = Some 3010%Z \/ contains "DPY-3010" m = true).
  { intros [z|] m H; apply orb_true_iff in H; destruct H as [H|H];
      try (right; exact H); try discriminate.
    left. apply Z.eqb_eq in H. subst z. reflexivity. }
  destruct (thick_mode_initialized c) eqn:Et.
  - destruct (drv_connect (drv c) true) as [e|] eqn:E1; [|fin].
    destruct e; try solve [fin].
    destruct (_ || _); [|fin]. cbn [drv]. rewrite ?Et, ?E1. fin.
  - destruct (drv_connect (drv c) false) as [e|] eqn:E1; [|fin].
    destruct e as [| | | | | | |k msg| ]; try solve [fin].
    destruct (match k with Some k => (k =? 3010)%Z | None => false end
              || contains "DPY-3010" msg) eqn:Ed; [|fin].
    rewrite ?Et.
    destruct (drv_init_oracle_client (drv c) (truthy_path (instant_client_path (cfg c))))
      as [e0|] eqn:Ei; [fin|].
    cbn [fst snd drv set_thick].
    destruct (drv_connect (drv c) true) as [e1|]; fin;
      exists k, msg; (split; [reflexivity|]); split; [apply Hcode; exact Ed|reflexivity|apply Hcode; exact Ed|reflexivity].
Qed.

(** ** The scheduled runs *)

Lemma get_oracle_config_frame :
  forall F name t, snd (get_oracle_config F name t) = t.
Proof.
  intros F name t. unfold get_oracle_config, bind, get, lift, ret.
  destruct name as [[|a n]|];
    match goal with |- snd (match ?x with Some _ => _ | None => _ end _) = _ =>
      destruct x as [cfg_|] end;
    try reflexivity; destruct (oracle_config_of_row F cfg_); reflexivity.
Qed.

Lemma get_oriontax_config_frame :
  forall F d, snd (get_oriontax_config F d) = d.
Proof.
  intros F d. unfold get_oriontax_config, bind, get, lift, ret.
  destruct (latest _) as [cfg_|]; [|reflexivity].
  destruct (config_of_row F cfg_); reflexivity.
Qed.

Lemma world_same :
  forall w, Sync.mk_world (Sync.w_db w) (Sync.w_tables w) (Sync.w_oracle w)
                          (Sync.w_started w) = w.
Proof. destruct w; reflexivity. Qed.

(** X27.  [_execute_sync] never raises and touches neither the
    connections, the log, the clients nor the enterprise server.  When
    both configurations are found and decrypt and there is an active
    client, it starts one thread per active client, in order of name, each
    with the operation, the two configurations and the client's CNPJ and
    name, and then stamps the last run of every schedule of that operation;
    in every other case it starts nothing and changes nothing. *)
Theorem execute_sync_fans_out :
  forall (E : Sync.env) (now : Z) (operation_type : string) (w : Sync.world),
    let out := Sync._execute_sync E now operation_type w in
    let active := order_by_nome (filter cl_is_active (clientes (Sync.w_db w))) in
    fst out = Ok tt
    /\ Sync.w_tables (snd out) = Sync.w_tables w
    /\ Sync.w_oracle (snd out) = Sync.w_oracle w
    /\ clientes (Sync.w_db (snd out)) = clientes (Sync.w_db w)
    /\ match fst (get_oracle_config (Sync.cipher E) None (Sync.w_tables w)),
             fst (get_oriontax_config (Sync.cipher E) (Sync.w_db w)), active with
       | Ok (Some oracle_config), Ok (Some oriontax_config), _ :: _ =>
           Sync.w_started (snd out)
           = (Sync.w_started w
              ++ map (fun c => Sync.mk_worker operation_type oracle_config
                                 oriontax_config (cl_cnpj c) (cl_nome c)) active)%list
           /\ Sync.w_db (snd out)
              = snd (update_schedule_last_run now operation_type (Sync.w_db w))
           /\ Forall (fun a => ag_tipo_operacao a = operation_type ->
                               ag_ultima_execucao a = Some now)
                     (agendamentos (Sync.w_db (snd out)))
       | _, _, _ => snd out = w
       end.
Proof.
  intros E now op w out active. subst out.
  unfold Sync._execute_sync, try_except, bind, Sync.on_tables, Sync.on_db.
  pose proof (get_oracle_config_frame (Sync.cipher E) None (Sync.w_tables w)) as Ft.
  destruct (get_oracle_config (Sync.cipher E) None (Sync.w_tables w)) as [r1 t1].
  cbn [fst snd] in *. subst t1.
  destruct r1 as [oc|e1]; [|rewrite world_same; cbn; repeat split; reflexivity].
  cbn [Sync.w_db Sync.w_tables Sync.w_oracle Sync.w_started].
  pose proof (get_oriontax_config_frame (Sync.cipher E) (Sync.w_db w)) as Fd.
  destruct (get_oriontax_config (Sync.cipher E) (Sync.w_db w)) as [r2 d2].
  cbn [fst snd] in *. subst d2.
  destruct r2 as [pc|e2];
    [|rewrite world_same; cbn; repeat split; destruct oc; reflexivity].
  destruct oc as [oc|]; [|rewrite world_same; cbn; repeat split; reflexivity].
  destruct pc as [pc|]; [|rewrite world_same; cbn; repeat split; reflexivity].
  unfold get_all_clientes, bind, get, ret.
  cbn [Sync.w_db Sync.w_tables Sync.w_oracle Sync.w_started fst snd].
  fold active.
  destruct active as [|c0 rest] eqn:Ea;
    [rewrite world_same; cbn; repeat split; reflexivity|].
  unfold modify, update_schedule_last_run, modify.
  cbn [fst snd Sync.w_db Sync.w_tables Sync.w_oracle Sync.w_started].
  repeat split.
  cbn [agendamentos set_agendamentos]. apply Forall_map. apply Forall_forall.
  intros a _. destruct (String.eqb (ag_tipo_operacao a) op) eqn:Q.
  - intros _. reflexivity.
  - intro H. apply String.eqb_neq in Q. congruence.
Qed.



Lemma add_log_accepted :
  forall now tipo status msg reg tempo err t,
    In status ["SUCESSO"; "ERRO"] ->
    Store.add_log now tipo status msg reg tempo err t
    = (Ok tt,
       set_logs t
         (logs_execucao t
          ++ [mk_log_row (next_id (map lg_id (logs_execucao t)) (seq_logs_execucao t))
                         tipo status msg reg tempo err now])
         (next_id (map lg_id (logs_execucao t)) (seq_logs_execucao t))).
Proof.
  intros now tipo status msg reg tempo err t [<-|[<-|[]]]; reflexivity.
Qed.

(** A row added to the log of a world that differs from [w] by its
    enterprise server only. *)
Lemma on_tables_add_log :
  forall now tipo status msg reg tempo err w s,
    In status ["SUCESSO"; "ERRO"] ->
    let w0 := Sync.mk_world (Sync.w_db w) (Sync.w_tables w) s (Sync.w_started w) in
    let row := mk_log_row
                 (next_id (map lg_id (logs_execucao (Sync.w_tables w)))
                          (seq_logs_execucao (Sync.w_tables w)))
                 tipo status msg reg tempo err now in
    exists w',
      Sync.on_tables (Store.add_log now tipo status msg reg tempo err) w0 = (Ok tt, w')
      /\ Sync.w_oracle w' = s
      /\ logs_execucao (Sync.w_tables w')
         = (logs_execucao (Sync.w_tables w) ++ [row])%list
      /\ logged_once now tipo w w'.
Proof.
  intros now tipo status msg reg tempo err w s Hs w0 row.
  unfold Sync.on_tables. subst w0. cbn [Sync.w_tables Sync.w_db Sync.w_oracle Sync.w_started].
  rewrite (add_log_accepted _ _ _ _ _ _ _ _ Hs).
  eexists. split; [reflexivity|]. cbn. split; [reflexivity|]. split; [reflexivity|].
  unfold logged_once. cbn. repeat split.
  exists row. subst row. cbn. repeat split; try assumption. apply next_id_fresh.
Qed.

(** X28.  [_execute_sync_for_client] never raises and never
    touches the clients, the schedules or the connections.  For ENVIAR and
    BUSCAR every run, whatever fails, adds exactly one row to the execution
    log, for that operation, with status SUCESSO or ERRO, under a new id;
    for any other operation it does nothing at all. *)
Theorem scheduled_run_logs_once :
  forall (E : Sync.env) (now : Z) (tempo : pyfloat) (operation_type : string)
         (oc : oracle_config) (pc : oriontax_config) (cnpj nome_cliente : string)
         (w : Sync.world),
    let out := Sync._execute_sync_for_client E now tempo operation_type oc pc cnpj
                                             nome_cliente w in
    fst out = Ok tt
    /\ (mem operation_type ["ENVIAR"; "BUSCAR"] = false -> snd out = w)
    /\ (mem operation_type ["ENVIAR"; "BUSCAR"] = true ->
        logged_once now operation_type w (snd out)).
Proof.
  intros E now tempo op oc pc cnpj nome w out. subst out.
  assert (Hlog : forall tipo status msg reg tm err s r w',
             In status ["SUCESSO"; "ERRO"] ->
             Sync.on_tables (Store.add_log now tipo status msg reg tm err)
               (Sync.mk_world (Sync.w_db w) (Sync.w_tables w) s (Sync.w_started w))
             = (r, w') ->
             r = Ok tt /\ logged_once now tipo w w').
  { intros tipo status msg reg tm err s r w' Hs R.
    destruct (on_tables_add_log now tipo status msg reg tm err w s Hs)
      as (w1 & R1 & _ & _ & H). rewrite R1 in R. injection R as <- <-.
    split; [reflexivity|exact H]. }
  assert (Herro : forall tipo msg reg tm err s r w',
             Sync.on_tables (Store.add_log now tipo "ERRO" msg reg tm err)
               (Sync.mk_world (Sync.w_db w) (Sync.w_tables w) s (Sync.w_started w))
             = (r, w') ->
             r = Ok tt /\ (true = false -> w' = w)
             /\ (true = true -> logged_once now tipo w w')).
  { intros tipo msg reg tm err s r w' R.
    apply Hlog in R; [|right; left; reflexivity]. destruct R as [-> H].
    split; [reflexivity|]. split; [discriminate|intros _; exact H]. }
  assert (Hsucesso : forall tipo msg reg tm err s r w',
             Sync.on_tables (Store.add_log now tipo "SUCESSO" msg reg tm err)
               (Sync.mk_world (Sync.w_db w) (Sync.w_tables w) s (Sync.w_started w))
             = (r, w') ->
             r = Ok tt /\ (true = false -> w' = w)
             /\ (true = true -> logged_once now tipo w w')).
  { intros tipo msg reg tm err s r w' R.
    apply Hlog in R; [|left; reflexivity]. destruct R as [-> H].
    split; [reflexivity|]. split; [discriminate|intros _; exact H]. }
  destruct (Sync._execute_sync_for_client E now tempo op oc pc cnpj nome w)
    as [r w'] eqn:R.
  cbn [fst snd]. revert R.
  unfold Sync._execute_sync_for_client, try_except.
  unfold mem. cbn [existsb]. rewrite (String.eqb_sym op "ENVIAR"), (String.eqb_sym op "BUSCAR").
  rewrite (String.eqb_sym "ENVIAR" op), (String.eqb_sym "BUSCAR" op).
  destruct (String.eqb op "ENVIAR") eqn:Q1.
  { apply String.eqb_eq in Q1. subst op. cbn [orb].
    unfold bind at 1. unfold Sync.on_oracle at 1.
    match goal with |- context [let (r, c') := ?m ?c in _] =>
      destruct (m c) as [[frames|e] c'] end; [|apply Herro].
    unfold bind at 1, lift at 1.
    destruct (Sync.ot_connect (Sync.oriontax E pc)) as [e|]; [apply Herro|].
    unfold bind at 1, lift at 1.
    destruct (Sync.ot_write_dataframes_to_views _ _ _) as [[success message]|e];
      [|apply Herro].
    destruct success.
    - destruct (Sync.on_tables _ _) as [[[]|e] w1] eqn:R1; intro R.
      + injection R as <- <-. revert R1. apply Hsucesso.
      + exfalso. apply Hsucesso in R1. destruct R1 as [R1 _]. discriminate.
    - destruct (Sync.on_tables _ _) as [[[]|e] w1] eqn:R1; intro R.
      + injection R as <- <-. revert R1. apply Herro.
      + exfalso. apply Herro in R1. destruct R1 as [R1 _]. discriminate. }
  destruct (String.eqb op "BUSCAR") eqn:Q2.
  { apply String.eqb_eq in Q2. subst op. cbn [orb].
    unfold bind at 1, lift at 1.
    destruct (Sync.ot_connect (Sync.oriontax E pc)) as [e|].
    { rewrite <- (world_same w) at 1. apply Herro. }
    unfold bind at 1, lift at 1.
    destruct (Sync.ot_read_tmp_tables_to_dataframes _ _) as [frames|e].
    2:{ rewrite <- (world_same w) at 1. apply Herro. }
    unfold bind at 1. unfold Sync.on_oracle at 1.
    match goal with |- context [let (r, c') := ?m ?c in _] =>
      destruct (m c) as [[[success message]|e] c'] end; [|apply Herro].
    destruct success.
    - destruct (Sync.on_tables _ _) as [[[]|e] w1] eqn:R1; intro R.
      + injection R as <- <-. revert R1. apply Hsucesso.
      + exfalso. apply Hsucesso in R1. destruct R1 as [R1 _]. discriminate.
    - destruct (Sync.on_tables _ _) as [[[]|e] w1] eqn:R1; intro R.
      + injection R as <- <-. revert R1. apply Herro.
      + exfalso. apply Herro in R1. destruct R1 as [R1 _]. discriminate. }
  cbn. intro R. injection R as <- <-. split; [reflexivity|]. split; [reflexivity|discriminate].
Qed.


(** A run that fetches, on the samples: three rows are inserted, four
    are counted. *)
Example buscar_run_example :
  let w' := snd (Sync._execute_sync_for_client demo_env 90 (float_of_Z 2) "BUSCAR"
                   demo_oracle_config demo_oriontax_config "11111111000111" "Alfa"
                   demo_world) in
  map (fun r => (lg_status r, lg_registros_processados r, lg_mensagem r))
      (logs_execucao (Sync.w_tables w'))
  = [("SUCESSO", 4%Z, Some ("Cliente: Alfa - " ++ success_message 3))]
  /\ committed (Sync.w_oracle w') "MXF_TMP_ICMS_ENTRADA" = []
  /\ List.length (committed (Sync.w_oracle w') "MXF_TMP_PIS_COFINS") = 2.
Proof. vm_compute. repeat split. Qed.

(** A scheduled run on the samples: one thread, for the active client,
    and the schedule of the operation stamped. *)
Example execute_sync_example :
  let w' := snd (Sync._execute_sync demo_env 95 "ENVIAR" demo_world) in
  map (fun k => (Sync.wk_cnpj k, Sync.wk_nome k)) (Sync.w_started w')
  = [("11111111000111", "Alfa")]
  /\ map ag_ultima_execucao (agendamentos (Sync.w_db w')) = [Some 95%Z].
Proof. vm_compute. split; reflexivity. Qed.

